(** * The rmlui 4.x recipe (recipes/rmlui/4.x/conanfile.py)

    A shallow embedding of the recipe's hooks: option handling
    ([config_options], [configure]), the compiler gate ([validate] and its
    local helper [lazy_lt_semver]), the build-variable table ([generate]),
    the source patches ([_patch_sources]) and the published metadata
    ([package_info]).

    Python [str] is modelled as the [string] of its UTF-8 bytes (an ASCII
    text is its own encoding), Python [int] as [Z],
    a [dict] that is only read and written by key as a [gmap], a [dict] that
    is iterated as an association list in insertion order, and an exception
    as the [Raise] branch of [result]. *)

From Stdlib Require Import ZArith Ascii String List Bool Lia.
From stdpp Require Import base option gmap strings.
Import ListNotations.

Local Open Scope string_scope.
Local Open Scope Z_scope.

(** ** Exceptions *)

Inductive exn : Type :=
| ValueError
| KeyError
| FileNotFoundError
| ConanException
| ConanInvalidConfiguration.

Inductive result (A : Type) : Type :=
| Ok (a : A)
| Raise (e : exn).

Arguments Ok {A} a.
Arguments Raise {A} e.

(** Sequencing: an exception ends the computation. *)
#[global] Instance result_bind : MBind result :=
  fun A B (k : A -> result B) (r : result A) =>
    match r with
    | Ok a => k a
    | Raise e => Raise e
    end.

(** ** Python built-ins used by the recipe *)

Module Py.

(** [str.split(sep)] for a one-character separator: every occurrence of the
    separator cuts; the empty string gives one empty piece. *)
Fixpoint split (sep : ascii) (s : string) : list string :=
  match s with
  | EmptyString => [EmptyString]
  | String c s' =>
      if Ascii.eqb c sep then EmptyString :: split sep s'
      else match split sep s' with
           | piece :: rest => String c piece :: rest
           | [] => [String c EmptyString]
           end
  end.

(** [sep.join(pieces)]. *)
Fixpoint join (sep : string) (pieces : list string) : string :=
  match pieces with
  | [] => EmptyString
  | [p] => p
  | p :: rest => p ++ sep ++ join sep rest
  end.

(** ASCII white space as [int()] skips it: tab, line feed, vertical tab,
    form feed, carriage return and space. *)
Definition is_space (c : ascii) : bool :=
  let n := nat_of_ascii c in
  ((9 <=? n)%nat && (n <=? 13)%nat) || (n =? 32)%nat.

Definition digit_of (c : ascii) : option Z :=
  let n := Z.of_nat (nat_of_ascii c) in
  if (48 <=? n) && (n <=? 57) then Some (n - 48) else None.

Fixpoint lstrip (s : string) : string :=
  match s with
  | EmptyString => EmptyString
  | String c s' => if is_space c then lstrip s' else s
  end.

Fixpoint all_space (s : string) : bool :=
  match s with
  | EmptyString => true
  | String c s' => is_space c && all_space s'
  end.

(** The interpreter's default bound on the number of digits of a decimal
    numeral given to [int()] ([sys.get_int_max_str_digits()]). *)
Definition int_max_str_digits : Z := 4300.

(** The digits after the first one: a digit, or one underscore followed by a
    digit. Returns the value, the number of digits read and the text left;
    [None] for an underscore that no digit follows. *)
Fixpoint int_digits (s : string) (acc : Z) (n : Z) : option (Z * Z * string) :=
  match s with
  | EmptyString => Some (acc, n, EmptyString)
  | String c s' =>
      match digit_of c with
      | Some d => int_digits s' (10 * acc + d) (n + 1)
      | None =>
          if Ascii.eqb c "_" then
            match s' with
            | String c2 s'' =>
                match digit_of c2 with
                | Some d => int_digits s'' (10 * acc + d) (n + 1)
                | None => None
                end
            | EmptyString => None
            end
          else Some (acc, n, s)
      end
  end.

(** The parse behind [int(s)] in base ten, on ASCII text: white space, an
    optional sign, digits with single underscores between them, white space;
    [None] stands for [ValueError]. *)
Definition parse_int (s : string) : option Z :=
  let s1 := lstrip s in
  let '(neg, s2) :=
    match s1 with
    | String c r =>
        if Ascii.eqb c "-" then (true, r)
        else if Ascii.eqb c "+" then (false, r)
        else (false, s1)
    | EmptyString => (false, s1)
    end in
  match s2 with
  | String c s3 =>
      match digit_of c with
      | Some d =>
          match int_digits s3 d 1 with
          | Some (v, n, rest) =>
              if all_space rest && (n <=? int_max_str_digits)
              then Some (if neg then - v else v)
              else None
          | None => None
          end
      | None => None
      end
  | EmptyString => None
  end.

Definition code (c : ascii) : N := N_of_ascii c.

Fixpoint is_ascii (s : string) : bool :=
  match s with
  | EmptyString => true
  | String c s' => (code c <? 128)%N && is_ascii s'
  end.

(** The digit zero of every run of decimal digits of Unicode 14.0; the
    digits one to nine follow each. *)
Definition decimal_zeros : list N :=
  [
    48; 1632; 1776; 1984; 2406; 2534; 2662; 2790; 2918; 3046; 3174; 3302;
    3430; 3558; 3664; 3792; 3872; 4160; 4240; 6112; 6160; 6470; 6608; 6784;
    6800; 6992; 7088; 7232; 7248; 42528; 43216; 43264; 43472; 43504; 43600;
    44016; 65296; 66720; 68912; 69734; 69872; 69942; 70096; 70384; 70736;
    70864; 71248; 71360; 71472; 71904; 72016; 72784; 73040; 73120; 92768;
    92864; 93008; 120782; 120792; 120802; 120812; 120822; 123200; 123632;
    125264; 130032 ]%N.

(** The decimal value of a code point, for a decimal digit. *)
Definition unicode_decimal (cp : N) : option N :=
  match List.find (fun z => (z <=? cp)%N && (cp <=? z + 9)%N) decimal_zeros with
  | Some z => Some (cp - z)%N
  | None => None
  end.

(** The code points that count as white space. *)
Definition unicode_spaces : list N :=
  [
    9; 10; 11; 12; 13; 28; 29; 30; 31; 32; 133; 160; 5760; 8192; 8193; 8194;
    8195; 8196; 8197; 8198; 8199; 8200; 8201; 8202; 8232; 8233; 8239; 8287;
    12288 ]%N.

Definition unicode_isspace (cp : N) : bool := existsb (N.eqb cp) unicode_spaces.

(** One code point made ASCII for the parse: a code point below 127 stays,
    white space becomes a space, a decimal digit becomes its ASCII digit;
    [None] for any other code point. *)
Definition to_ascii_char (cp : N) : option ascii :=
  if (cp <? 127)%N then Some (ascii_of_N cp)
  else if unicode_isspace cp then Some " "%char
  else match unicode_decimal cp with
       | Some d => Some (ascii_of_N (48 + d))
       | None => None
       end.

(** The text ends in a question mark at the first code point that cannot be
    made ASCII. *)
Definition emit (cp : N) (rest : option string) : option string :=
  match to_ascii_char cp with
  | Some c =>
      match rest with
      | Some r => Some (String c r)
      | None => None
      end
  | None => Some "?"
  end.

Definition continuation (b : ascii) : bool :=
  (128 <=? code b)%N && (code b <? 192)%N.

(** The code point of a sequence of two, three or four UTF-8 bytes. *)
Definition decode2 (b0 b1 : ascii) : option N :=
  if (194 <=? code b0)%N && (code b0 <? 224)%N && continuation b1
  then Some ((code b0 - 192) * 64 + (code b1 - 128))%N
  else None.

Definition decode3 (b0 b1 b2 : ascii) : option N :=
  let cp := ((code b0 - 224) * 4096 + (code b1 - 128) * 64 + (code b2 - 128))%N in
  if (224 <=? code b0)%N && (code b0 <? 240)%N && continuation b1 && continuation b2
     && (2048 <=? cp)%N && negb ((55296 <=? cp)%N && (cp <? 57344)%N)
  then Some cp
  else None.

Definition decode4 (b0 b1 b2 b3 : ascii) : option N :=
  let cp := ((code b0 - 240) * 262144 + (code b1 - 128) * 4096
             + (code b2 - 128) * 64 + (code b3 - 128))%N in
  if (240 <=? code b0)%N && (code b0 <? 245)%N && continuation b1 && continuation b2
     && continuation b3 && (65536 <=? cp)%N && (cp <? 1114112)%N
  then Some cp
  else None.

(** A text with characters outside ASCII, made ASCII code point by code
    point; [None] for bytes that encode no text. *)
Fixpoint to_ascii (s : string) : option string :=
  match s with
  | EmptyString => Some EmptyString
  | String b0 s1 =>
      if (code b0 <? 128)%N then emit (code b0) (to_ascii s1)
      else
        match s1 with
        | EmptyString => None
        | String b1 s2 =>
            match decode2 b0 b1 with
            | Some cp => emit cp (to_ascii s2)
            | None =>
                match s2 with
                | EmptyString => None
                | String b2 s3 =>
                    match decode3 b0 b1 b2 with
                    | Some cp => emit cp (to_ascii s3)
                    | None =>
                        match s3 with
                        | EmptyString => None
                        | String b3 s4 =>
                            match decode4 b0 b1 b2 b3 with
                            | Some cp => emit cp (to_ascii s4)
                            | None => None
                            end
                        end
                    end
                end
            end
        end
  end.

(** [int(s)] in base ten: an ASCII text is parsed as it is, any other text
    after it has been made ASCII; [None] stands for [ValueError]. *)
Definition int (s : string) : option Z :=
  if is_ascii s then parse_int s
  else match to_ascii s with
       | Some a => parse_int a
       | None => None
       end.

(** [a < b] on lists of integers: the first place where they differ decides;
    a proper prefix is smaller. *)
Fixpoint list_lt (a b : list Z) : bool :=
  match a, b with
  | [], [] => false
  | [], _ :: _ => true
  | _ :: _, [] => false
  | x :: a', y :: b' => if x =? y then list_lt a' b' else x <? y
  end.

(** [[int(v) for v in pieces]]: the first piece that does not convert ends the
    comprehension with [ValueError]. *)
Fixpoint ints (pieces : list string) : result (list Z) :=
  match pieces with
  | [] => Ok []
  | p :: rest =>
      match int p with
      | Some z => zs ← ints rest; Ok (z :: zs)
      | None => Raise ValueError
      end
  end.

(** [s.startswith(p)]. *)
Fixpoint startswith (p s : string) : bool :=
  match p, s with
  | EmptyString, _ => true
  | String _ _, EmptyString => false
  | String a p', String b s' => Ascii.eqb a b && startswith p' s'
  end.

Fixpoint find_from (sub s : string) (i : Z) : Z :=
  if startswith sub s then i
  else match s with
       | EmptyString => -1
       | String c s' => find_from sub s' (if continuation c then i else i + 1)
       end.

(** [s.find(sub)]: the lowest index where [sub] starts, counted in code
    points, [-1] when there is none. *)
Definition find (s sub : string) : Z := find_from sub s 0.

(** The scan of [s.replace(old, new)] for a non-empty [old]: [skip] counts the
    characters of a match still to be passed over. *)
Fixpoint replace_scan (old new : string) (skip : nat) (s : string) : string :=
  match s with
  | EmptyString => EmptyString
  | String c s' =>
      match skip with
      | S k => replace_scan old new k s'
      | O =>
          if startswith old s
          then new ++ replace_scan old new (String.length old - 1) s'
          else String c (replace_scan old new 0 s')
      end
  end.

Fixpoint interleave (new s : string) : string :=
  match s with
  | EmptyString => new
  | String c s' => new ++ String c (interleave new s')
  end.

(** [s.replace(old, new)]: the occurrences of [old] are taken from the left,
    without overlap; an empty [old] matches before every character and at
    the end. *)
Definition replace (s old new : string) : string :=
  match old with
  | EmptyString => interleave new s
  | String _ _ => replace_scan old new 0 s
  end.

(** The characters [re.escape] puts a backslash before. *)
Definition re_special (c : ascii) : bool :=
  existsb (Ascii.eqb c)
    (list_ascii_of_string "()[]{}?*+-|^$\.&~# "
       ++ map ascii_of_nat [9; 10; 13; 11; 12]%nat).

Definition backslash : ascii := ascii_of_nat 92.

(** [re.escape(s)]. *)
Fixpoint re_escape (s : string) : string :=
  match s with
  | EmptyString => EmptyString
  | String c s' =>
      if re_special c then String backslash (String c (re_escape s'))
      else String c (re_escape s')
  end.

(** [os.path.join(a, b)] with the POSIX rules: an absolute [b] replaces [a];
    otherwise one slash separates them unless [a] is empty or ends in one. *)
Fixpoint ends_with_slash (a : string) : bool :=
  match a with
  | EmptyString => false
  | String c EmptyString => Ascii.eqb c "/"
  | String _ a' => ends_with_slash a'
  end.

Definition path_join (a b : string) : string :=
  if startswith "/" b then b
  else if String.eqb a "" || ends_with_slash a then a ++ b
  else a ++ "/" ++ b.

End Py.

(** ** The compiler gate *)

(** [_minimum_compilers_version]. *)
Definition _minimum_compilers_version : gmap string string :=
  <["apple-clang" := "5.1"]>
  (<["clang" := "3.4"]>
  (<["gcc" := "5"]>
  (<["intel" := "17"]>
  (<["sun-cc" := "5.15"]>
  (<["Visual Studio" := "15"]> ∅))))).

Definition _minimum_cpp_standard : Z := 14.

(** [lazy_lt_semver], the helper local to [validate]. *)
Definition lazy_lt_semver (v1 v2 : string) : result bool :=
  lv1 ← Py.ints (Py.split "." v1);
  lv2 ← Py.ints (Py.split "." v2);
  let min_length := Nat.min (length lv1) (length lv2) in
  Ok (Py.list_lt (firstn min_length lv1) (firstn min_length lv2)).

(** The part of [self.settings] the recipe reads. [compiler_cppstd] is what
    [self.settings.compiler.get_safe("cppstd")] returns. *)
Record Settings : Type := {
  os : string;
  compiler : string;
  compiler_version : string;
  compiler_cppstd : option string
}.

(** Truth value of an optional string: [None] and the empty string are
    false. *)
Definition truthy (v : option string) : bool :=
  match v with
  | None => false
  | Some s => negb (String.eqb s "")
  end.

Definition lacks_information_warning : string :=
  "{self.name} recipe lacks information about the {self.settings.compiler} compiler support.".

Section Validate.

(** [conan.tools.build.check_min_cppstd], applied to the declared standard
    and the minimum: the recipe only passes its outcome on. *)
Variable check_min_cppstd : string -> Z -> result unit.

(** [validate]: the warnings written to [self.output] and the outcome. *)
Definition validate (settings : Settings) : list string * result unit :=
  let std_check :=
    match compiler_cppstd settings with
    | Some cppstd =>
        if truthy (Some cppstd)
        then check_min_cppstd cppstd _minimum_cpp_standard
        else Ok tt
    | None => Ok tt
    end in
  match std_check with
  | Raise e => ([], Raise e)
  | Ok _ =>
      let min_version := _minimum_compilers_version !! compiler settings in
      if negb (truthy min_version) then
        ([lacks_information_warning], Ok tt)
      else
        match min_version with
        | Some min_version =>
            match lazy_lt_semver (compiler_version settings) min_version with
            | Raise e => ([], Raise e)
            | Ok true => ([], Raise ConanInvalidConfiguration)
            | Ok false => ([], Ok tt)
            end
        | None => ([], Ok tt)
        end
  end.

End Validate.

(** Modelled from the spec: [check_min_cppstd] is imported from
    [conan.tools.build] and not defined in the recipe; by the
    language-standard rule a declared standard below the minimum fails with
    the configuration error. The declared standard is read as a number. *)
Definition check_min_cppstd_numeric (cppstd : string) (minimum : Z) : result unit :=
  match Py.int cppstd with
  | Some n => if n <? minimum then Raise ConanInvalidConfiguration else Ok tt
  | None => Raise ConanException
  end.

(** ** Options *)

Inductive FontInterface : Type := freetype.

Inductive MatrixMode : Type := column_major | row_major.

(** [options]: one field per declared option, typed by its list of allowed
    values. [font_interface] is ["freetype"] or [None]; [fPIC] is [None] once
    the option has been deleted. *)
Record Options : Type := {
  enable_rtti_and_exceptions : bool;
  font_interface : option FontInterface;
  fPIC : option bool;
  matrix_mode : MatrixMode;
  shared : bool;
  with_lua_bindings : bool;
  with_thirdparty_containers : bool
}.

(** [default_options]. *)
Definition default_options : Options := {|
  enable_rtti_and_exceptions := true;
  font_interface := Some freetype;
  fPIC := Some true;
  matrix_mode := column_major;
  shared := false;
  with_lua_bindings := false;
  with_thirdparty_containers := true
|}.

Definition remove_fPIC (o : Options) : Options := {|
  enable_rtti_and_exceptions := enable_rtti_and_exceptions o;
  font_interface := font_interface o;
  fPIC := None;
  matrix_mode := matrix_mode o;
  shared := shared o;
  with_lua_bindings := with_lua_bindings o;
  with_thirdparty_containers := with_thirdparty_containers o
|}.

(** [del self.options.fPIC]: deleting an option that is not there raises. *)
Definition del_fPIC (o : Options) : result Options :=
  match fPIC o with
  | Some _ => Ok (remove_fPIC o)
  | None => Raise ConanException
  end.

(** [self.options.rm_safe("fPIC")]: never raises. *)
Definition rm_safe_fPIC (o : Options) : Options := remove_fPIC o.

(** [config_options]. *)
Definition config_options (settings_os : string) (o : Options) : result Options :=
  if String.eqb settings_os "Windows" then del_fPIC o else Ok o.

(** [configure]. *)
Definition configure (o : Options) : Options :=
  if shared o then rm_safe_fPIC o else o.

(** The resolved options: [config_options], then [configure]. *)
Definition resolve_options (settings_os : string) (o : Options) : result Options :=
  o' ← config_options settings_os o; Ok (configure o').

(** ** Requirements and dependencies *)

(** [requirements]: the references passed to [self.requires], in order. *)
Definition requirements (o : Options) : list string :=
  (match font_interface o with
   | Some freetype => ["freetype/2.13.0"]
   | None => []
   end)
  ++ (if with_lua_bindings o then ["lua/5.4.4"] else [])
  ++ (if with_thirdparty_containers o then ["robin-hood-hashing/3.11.5"] else []).

Record CppInfo : Type := {
  includedirs : list string;
  defines : list string;
  libs : list string
}.

(** The package name of a reference [name/version]. *)
Definition ref_name (ref : string) : string :=
  match Py.split "/" ref with
  | name :: _ => name
  | [] => ref
  end.

(** [self.dependencies] as [generate] sees it when [requirements] has
    declared [refs]: one entry per required package, under its name. *)
Definition dependencies_of (packages : string -> CppInfo) (refs : list string)
  : gmap string CppInfo :=
  list_to_map (map (fun r => (ref_name r, packages (ref_name r))) refs).

(** ** Build variables *)

Inductive PyValue : Type :=
| PyBool (b : bool)
| PyStr (s : string).

Definition matrix_mode_eqb (m1 m2 : MatrixMode) : bool :=
  match m1, m2 with
  | column_major, column_major | row_major, row_major => true
  | _, _ => false
  end.

(** [self.options.<name> is None]: reading an option gives the option
    object of the package manager, which is never the [None] object itself,
    so the identity test is false whatever value the option holds. *)
Definition option_object_is_None {A : Type} (value : option A) : bool := false.

Definition robin_hood : string := "robin-hood-hashing".

(** [self.dependencies[name]]. *)
Definition getitem (deps : gmap string CppInfo) (name : string) : result CppInfo :=
  match deps !! name with
  | Some info => Ok info
  | None => Raise KeyError
  end.

(** [generate]: the table [tc.variables] handed to [tc.generate()]. *)
Definition generate (o : Options) (deps : gmap string CppInfo)
  : result (gmap string PyValue) :=
  let tc : gmap string PyValue := ∅ in
  let tc := <["BUILD_LUA_BINDINGS" := PyBool (with_lua_bindings o)]> tc in
  let tc := <["BUILD_SAMPLES" := PyBool false]> tc in
  let tc := <["CUSTOM_CONFIGURATION" := PyBool true]> tc in
  dep ← getitem deps robin_hood;
  let tc := <["CUSTOM_INCLUDE_DIRS" :=
               PyStr (Py.join ";" (map Py.re_escape (includedirs dep)))]> tc in
  let tc := <["DISABLE_RTTI_AND_EXCEPTIONS" :=
               PyBool (negb (enable_rtti_and_exceptions o))]> tc in
  let tc := <["ENABLE_PRECOMPILED_HEADERS" := PyBool true]> tc in
  let tc := <["ENABLE_TRACY_PROFILING" := PyBool false]> tc in
  let tc := <["MATRIX_ROW_MAJOR" :=
               PyBool (matrix_mode_eqb (matrix_mode o) row_major)]> tc in
  let tc := <["NO_FONT_INTERFACE_DEFAULT" :=
               PyBool (option_object_is_None (font_interface o))]> tc in
  let tc := <["NO_THIRDPARTY_CONTAINERS" :=
               PyBool (negb (with_thirdparty_containers o))]> tc in
  Ok tc.

(** ** Source patches *)

(** The files on disk and the warnings written so far. An exception leaves
    both as they were when it was raised. *)
Record World : Type := {
  files : gmap string string;
  warnings : list string
}.

Definition warn (msg : string) (w : World) : World :=
  {| files := files w; warnings := warnings w ++ [msg] |}.

Definition save (file_path content : string) (w : World) : World :=
  {| files := <[file_path := content]> (files w); warnings := warnings w |}.

Definition not_found_message (search file_path : string) : string :=
  "replace_in_file didn't find pattern '" ++ search ++ "' in '"
    ++ file_path ++ "' file.".

(** [conan.tools.files.replace_in_file(self, file_path, search, replace,
    strict)]: literal replacement of every occurrence; when the text is
    absent a strict call raises and a lenient one warns and leaves the file
    alone. *)
Definition replace_in_file (file_path search replace : string) (strict : bool)
    (w : World) : World * result unit :=
  match files w !! file_path with
  | None => (w, Raise FileNotFoundError)
  | Some content =>
      if Py.find content search =? -1 then
        if strict then (w, Raise ConanException)
        else (warn (not_found_message search file_path) w, Ok tt)
      else (save file_path (Py.replace content search replace) w, Ok tt)
  end.

(** [strict] when the call does not give it, as in line 144:
    [replace_in_file(conanfile, file_path, search, replace, strict=True)]. *)
Definition strict_default : bool := true.

(** [replace_mapping], in the order its items are visited. *)
Definition replace_mapping : list (string * string) :=
  [ ("FREETYPE_FOUND", "Freetype_FOUND");
    ("FREETYPE_INCLUDE_DIRS", "Freetype_INCLUDE_DIRS");
    ("FREETYPE_LINK_DIRS", "Freetype_LINK_DIRS");
    ("FREETYPE_LIBRARY", "Freetype_LIBRARIES");
    ("FREETYPE_LIBRARIES", "Freetype_LIBRARIES");
    ("LUA_FOUND", "lua_FOUND");
    ("LUA_INCLUDE_DIR", "lua_INCLUDE_DIR");
    ("LUA_LIBRARIES", "lua_LIBRARIES");
    ("if(PkgHelpers_AVAILABLE)", "if(FALSE)") ].

Definition dquote : string := String (ascii_of_nat 34) EmptyString.

Definition robin_hood_search : string :=
  dquote ++ "../Core/Containers/robin_hood.h" ++ dquote.

Definition robin_hood_replace : string := "<robin_hood.h>".

(** The [for key, value in replace_mapping.items()] loop. *)
Fixpoint replace_each (file_path : string) (items : list (string * string))
    (w : World) : World * result unit :=
  match items with
  | [] => (w, Ok tt)
  | (key, value) :: rest =>
      match replace_in_file file_path key value false w with
      | (w', Ok _) => replace_each file_path rest w'
      | (w', Raise e) => (w', Raise e)
      end
  end.

Definition cmakelists_path (source_folder : string) : string :=
  Py.path_join source_folder "CMakeLists.txt".

Definition config_path (source_folder : string) : string :=
  Py.path_join (Py.path_join (Py.path_join (Py.path_join
    source_folder "Include") "RmlUi") "Config") "Config.h".

(** [_patch_sources]. *)
Definition _patch_sources (o : Options) (source_folder : string) (w : World)
  : World * result unit :=
  match replace_each (cmakelists_path source_folder) replace_mapping w with
  | (w', Raise e) => (w', Raise e)
  | (w', Ok _) =>
      if with_thirdparty_containers o then
        replace_in_file (config_path source_folder)
          robin_hood_search robin_hood_replace strict_default w'
      else (w', Ok tt)
  end.

(** ** Published metadata *)

Definition append_define (d : string) (c : CppInfo) : CppInfo :=
  {| includedirs := includedirs c; defines := defines c ++ [d]; libs := libs c |}.

Definition append_lib (l : string) (c : CppInfo) : CppInfo :=
  {| includedirs := includedirs c; defines := defines c; libs := libs c ++ [l] |}.

(** [package_info], as an update of [self.cpp_info]. *)
Definition package_info (o : Options) (cpp_info : CppInfo) : CppInfo :=
  let c := cpp_info in
  let c := if matrix_mode_eqb (matrix_mode o) row_major
           then append_define "RMLUI_MATRIX_ROW_MAJOR" c else c in
  let c := if negb (enable_rtti_and_exceptions o)
           then append_define "RMLUI_USE_CUSTOM_RTTI" c else c in
  let c := if negb (shared o)
           then append_define "RMLUI_STATIC_LIB" c else c in
  let c := if negb (with_thirdparty_containers o)
           then append_define "RMLUI_NO_THIRDPARTY_CONTAINERS" c else c in
  let c := if with_lua_bindings o
           then append_lib "RmlLua" c else c in
  let c := append_lib "RmlDebugger" c in
  append_lib "RmlCore" c.

(** [self.cpp_info] before [package_info] runs. *)
Definition empty_cpp_info : CppInfo :=
  {| includedirs := []; defines := []; libs := [] |}.

(** ** Build and package *)

(** The calls the recipe makes to the build tool and to [copy]. *)
Inductive Call : Type :=
| CMakeConfigure
| CMakeBuild
| CMakeInstall
| CopyLicenses.

(** The recipe instance: the source tree, whether the attribute [_cmake] has
    been set, and the calls made so far. *)
Record Recipe : Type := {
  disk : World;
  has_cmake : bool;
  calls : list Call
}.

Definition with_disk (w : World) (r : Recipe) : Recipe :=
  {| disk := w; has_cmake := has_cmake r; calls := calls r |}.

Section Hooks.

(** How a call ends, given the calls made before it: the build tool and
    [copy] are outside the recipe. *)
Variable external : list Call -> Call -> result unit.

Definition invoke (c : Call) (r : Recipe) : Recipe * result unit :=
  ({| disk := disk r; has_cmake := has_cmake r; calls := calls r ++ [c] |},
   external (calls r) c).

(** [_configure_cmake]: the attribute is set before [configure()] runs. *)
Definition _configure_cmake (r : Recipe) : Recipe * result unit :=
  if has_cmake r then (r, Ok tt)
  else invoke CMakeConfigure
         {| disk := disk r; has_cmake := true; calls := calls r |}.

(** [build]. *)
Definition build (o : Options) (source_folder : string) (r : Recipe)
  : Recipe * result unit :=
  match _patch_sources o source_folder (disk r) with
  | (w, Raise e) => (with_disk w r, Raise e)
  | (w, Ok _) =>
      match _configure_cmake (with_disk w r) with
      | (r1, Raise e) => (r1, Raise e)
      | (r1, Ok _) => invoke CMakeBuild r1
      end
  end.

(** [package]. *)
Definition package (r : Recipe) : Recipe * result unit :=
  match _configure_cmake r with
  | (r1, Raise e) => (r1, Raise e)
  | (r1, Ok _) =>
      match invoke CMakeInstall r1 with
      | (r2, Raise e) => (r2, Raise e)
      | (r2, Ok _) => invoke CopyLicenses r2
      end
  end.

Inductive Hook : Type := Build | Package.

(** One hook after the other on the same instance, whatever each returns. *)
Fixpoint run_hooks (o : Options) (source_folder : string) (hooks : list Hook)
    (r : Recipe) : Recipe :=
  match hooks with
  | [] => r
  | Build :: rest => run_hooks o source_folder rest (fst (build o source_folder r))
  | Package :: rest => run_hooks o source_folder rest (fst (package r))
  end.

End Hooks.

(** A recipe instance on which no hook has run. *)
Definition fresh (w : World) : Recipe :=
  {| disk := w; has_cmake := false; calls := [] |}.

(** A build tool that always succeeds, and one whose configure step fails. *)
Definition all_succeed (before : list Call) (c : Call) : result unit := Ok tt.

Definition configure_fails (before : list Call) (c : Call) : result unit :=
  match c with
  | CMakeConfigure => Raise ConanException
  | _ => Ok tt
  end.

(** ** Notions used to state the properties *)



(** A container package with two include directories, and a dependency set
    that holds it. *)
Definition sample_dep : CppInfo :=
  {| includedirs := ["/opt/robin-hood/include"; "/home/ci/.conan (2)/p/include"];
     defines := []; libs := [] |}.


(** The default options without the third-party containers. *)
Definition no_containers_options : Options := {|
  enable_rtti_and_exceptions := true;
  font_interface := Some freetype;
  fPIC := Some true;
  matrix_mode := column_major;
  shared := false;
  with_lua_bindings := false;
  with_thirdparty_containers := false
|}.

(** [all(f(c) for c in s)]. *)
Fixpoint str_forallb (f : ascii -> bool) (s : string) : bool :=
  match s with
  | EmptyString => true
  | String c s' => f c && str_forallb f s'
  end.

Definition is_digit (c : ascii) : bool :=
  match Py.digit_of c with
  | Some _ => true
  | None => false
  end.

(** A decimal numeral: one to 4300 of the characters 0 to 9. *)
Definition numeral (s : string) : bool :=
  negb (String.eqb s "") && str_forallb is_digit s
  && (Z.of_nat (String.length s) <=? Py.int_max_str_digits).

Fixpoint decimal_from (acc : Z) (s : string) : Z :=
  match s with
  | EmptyString => acc
  | String c s' => decimal_from (10 * acc + (Z.of_nat (nat_of_ascii c) - 48)) s'
  end.

(** The number a decimal numeral denotes. *)
Definition decimal_value (s : string) : Z := decimal_from 0 s.

(** A dotted-numeric version string: numerals separated by dots. *)
Definition dotted_numeric (v : string) : bool :=
  forallb numeral (Py.split "." v).

(** Its numeric components. *)
Definition components (v : string) : list Z :=
  map decimal_value (Py.split "." v).

(** The ASCII characters a text accepted by [int()] can be made of: digits,
    white space, a sign, the underscore. *)
Definition int_char (c : ascii) : bool :=
  is_digit c || Py.is_space c || Ascii.eqb c "+" || Ascii.eqb c "-"
  || Ascii.eqb c "_".

(** Lexicographic order on integer sequences. *)
Inductive lex_lt : list Z -> list Z -> Prop :=
| lex_lt_nil y ys : lex_lt [] (y :: ys)
| lex_lt_head x y xs ys : x < y -> lex_lt (x :: xs) (y :: ys)
| lex_lt_tail x xs ys : lex_lt xs ys -> lex_lt (x :: xs) (x :: ys).

(** A configuration with no language standard declared. *)
Definition settings_of (compiler_name version : string) : Settings :=
  {| os := "Linux"; compiler := compiler_name; compiler_version := version;
     compiler_cppstd := None |}.

(** The installed version is below the minimum the table gives for the
    compiler. *)
Definition below_minimum (settings : Settings) : Prop :=
  exists min_version,
    _minimum_compilers_version !! compiler settings = Some min_version /\
    lazy_lt_semver (compiler_version settings) min_version = Ok true.

(** No language standard is declared, or the declared one passes the
    check. *)
Definition standard_passes (check : string -> Z -> result unit)
    (settings : Settings) : Prop :=
  match compiler_cppstd settings with
  | Some cppstd =>
      truthy (Some cppstd) = false \/ check cppstd _minimum_cpp_standard = Ok tt
  | None => True
  end.

(** The compiler rule alone deciding the outcome of [validate]. *)
Definition compiler_rule_decides (check : string -> Z -> result unit)
    (settings : Settings) : Prop :=
  (snd (validate check settings) = Raise ConanInvalidConfiguration
   <-> below_minimum settings) /\
  (_minimum_compilers_version !! compiler settings = None ->
   validate check settings = ([lacks_information_warning], Ok tt)).

(** gcc 9 with C++11 declared. *)
Definition gcc9_cpp11 : Settings :=
  {| os := "Linux"; compiler := "gcc"; compiler_version := "9";
     compiler_cppstd := Some "11" |}.

(** gcc 9 with C++17 declared. *)
Definition gcc9_cpp17 : Settings :=
  {| os := "Linux"; compiler := "gcc"; compiler_version := "9";
     compiler_cppstd := Some "17" |}.

(** [s[k:]]. *)
Fixpoint str_drop (k : nat) (s : string) : string :=
  match k, s with
  | O, _ => s
  | S _, EmptyString => EmptyString
  | S k', String _ s' => str_drop k' s'
  end.

(** [sub in s]. *)
Fixpoint occursb (sub s : string) : bool :=
  Py.startswith sub s
  || match s with
     | EmptyString => false
     | String _ s' => occursb sub s'
     end.

(** Two texts laid over each other from their first characters agree as far
    as both reach. *)
Fixpoint compatible (a b : string) : bool :=
  match a, b with
  | String x a', String y b' => Ascii.eqb x y && compatible a' b'
  | _, _ => true
  end.

(** The non-empty suffixes of a text. *)
Fixpoint tails (s : string) : list string :=
  match s with
  | EmptyString => []
  | String _ s' => s :: tails s'
  end.

(** No copy of [pat] can share a character with a copy of [new]: however the
    two are laid over each other, they disagree somewhere in the part they
    share. *)
Definition no_overlap (pat new : string) : bool :=
  forallb (fun t => negb (compatible t new)) (tails pat)
  && forallb (fun t => negb (compatible pat t)) (tails new).

(** Every search text is non-empty and shares no character with its own
    replacement or with the replacement of a later rule. *)
Fixpoint stable (rules : list (string * string)) : bool :=
  match rules with
  | [] => true
  | (pat, new) :: rest =>
      negb (String.eqb pat "")
      && no_overlap pat new
      && forallb (fun r => no_overlap pat (snd r)) rest
      && stable rest
  end.

(** The text after the rules have been applied in order. *)
Definition patch_text (rules : list (string * string)) (content : string) : string :=
  fold_left (fun c r => Py.replace c (fst r) (snd r)) rules content.

Fixpoint last_char (s : string) : option ascii :=
  match s with
  | EmptyString => None
  | String c EmptyString => Some c
  | String _ s' => last_char s'
  end.

(** A second run of [_patch_sources] after a first one that completed:
    it completes too and leaves every file as the first run left it. *)
Definition reapplies_cleanly (o : Options) (source_folder : string) (w : World) : Prop :=
  forall w1, _patch_sources o source_folder w = (w1, Ok tt) ->
  exists w2, _patch_sources o source_folder w1 = (w2, Ok tt) /\ files w2 = files w1.

(** A source tree with the two files the patches touch. *)
Definition sample_world : World :=
  {| files :=
       <[ "/src/CMakeLists.txt" := "if(FREETYPE_FOUND) if(PkgHelpers_AVAILABLE)" ]>
       (<[ "/src/Include/RmlUi/Config/Config.h" :=
             "#include " ++ robin_hood_search ]> ∅);
     warnings := [] |}.

(** The order of two component lists as far as both reach: the first place
    where they differ decides; where one runs out, neither is smaller. *)
Fixpoint prefix_lt (a b : list Z) : bool :=
  match a, b with
  | x :: a', y :: b' => if x =? y then prefix_lt a' b' else x <? y
  | _, _ => false
  end.

(** The names [generate] gives to [tc.variables]. *)
Definition variable_names : list string :=
  [ "BUILD_LUA_BINDINGS"; "BUILD_SAMPLES"; "CUSTOM_CONFIGURATION";
    "CUSTOM_INCLUDE_DIRS"; "DISABLE_RTTI_AND_EXCEPTIONS";
    "ENABLE_PRECOMPILED_HEADERS"; "ENABLE_TRACY_PROFILING"; "MATRIX_ROW_MAJOR";
    "NO_FONT_INTERFACE_DEFAULT"; "NO_THIRDPARTY_CONTAINERS" ].


(** A source tree whose CMakeLists.txt holds none of the search texts and
    whose Config.h does not include the bundled container header. *)
Definition plain_world : World :=
  {| files :=
       <[ "/src/CMakeLists.txt" := "project(RmlUi)" ]>
       (<[ "/src/Include/RmlUi/Config/Config.h" := "#include <vector>" ]> ∅);
     warnings := [] |}.

(** A source tree whose CMakeLists.txt holds a search text and whose
    Config.h does not include the bundled container header. *)
Definition unbundled_world : World :=
  {| files :=
       <[ "/src/CMakeLists.txt" := "if(FREETYPE_FOUND)" ]>
       (<[ "/src/Include/RmlUi/Config/Config.h" := "#include <vector>" ]> ∅);
     warnings := [] |}.

(** The build tool was configured at most once, before every other call. *)
Definition configured_once (r : Recipe) : Prop :=
  if has_cmake r
  then exists rest, calls r = CMakeConfigure :: rest /\ ~ In CMakeConfigure rest
  else calls r = [].



(** The default options with no font interface. *)
Definition no_font_options : Options := {|
  enable_rtti_and_exceptions := true;
  font_interface := None;
  fPIC := Some true;
  matrix_mode := column_major;
  shared := false;
  with_lua_bindings := false;
  with_thirdparty_containers := true
|}.

(** * Properties *)

(** ** The built-ins on small inputs *)

Example split_trailing_dot : Py.split "." "5." = ["5"; ""].
Proof. reflexivity. Qed.

Example split_empty : Py.split "." "" = [""].
Proof. reflexivity. Qed.

Example int_padded : Py.int " +15 " = Some 15.
Proof. reflexivity. Qed.

Example int_underscore : Py.int "1_0" = Some 10 /\ Py.int "1__0" = None.
Proof. split; reflexivity. Qed.

Example int_negative : Py.int "-07" = Some (-7).
Proof. reflexivity. Qed.

Example list_lt_prefix :
  Py.list_lt [1] [1; 2] = true /\ Py.list_lt [1; 2] [1; 2] = false.
Proof. split; reflexivity. Qed.

Example find_last : Py.find "abc" "c" = 2 /\ Py.find "abc" "d" = -1.
Proof. split; reflexivity. Qed.

Example replace_leftmost : Py.replace "aaa" "aa" "b" = "ba".
Proof. reflexivity. Qed.

Example replace_empty_old : Py.replace "abc" "" "-" = "-a-b-c-".
Proof. reflexivity. Qed.

Example re_escape_path : Py.re_escape "a/b c.d;e-f_g" = "a/b\ c\.d;e\-f_g".
Proof. reflexivity. Qed.

Example path_join_cases :
  Py.path_join "x" "a" = "x/a" /\ Py.path_join "x/" "a" = "x/a"
  /\ Py.path_join "" "a" = "a" /\ Py.path_join "x" "/a" = "/a".
Proof. repeat split; reflexivity. Qed.

(** ** Options *)

Lemma configure_shared o : shared (configure o) = shared o.
Proof. unfold configure. destruct (shared o) eqn:E; simpl; auto. Qed.

(** C4: the resolved options hold no [fPIC] on Windows and none when [shared]
    is true; where [fPIC] is still there, the platform is not Windows,
    [shared] is false and the value is the one given. The resolution gives a
    result for every input that declares [fPIC], and for every input off
    Windows. *)
Theorem resolve_options_fPIC (settings_os : string) (o : Options) :
  (is_Some (fPIC o) \/ settings_os <> "Windows" ->
     exists o', resolve_options settings_os o = Ok o') /\
  (forall o', resolve_options settings_os o = Ok o' ->
     (settings_os = "Windows" -> fPIC o' = None) /\
     (shared o' = true -> fPIC o' = None) /\
     (is_Some (fPIC o') ->
        settings_os <> "Windows" /\ shared o' = false /\ fPIC o' = fPIC o)).
Proof.
  unfold resolve_options, config_options, del_fPIC.
  destruct (String.eqb_spec settings_os "Windows") as [Hw | Hw].
  - split.
    + intros [[b Hb] | Hne]; [| congruence].
      rewrite Hb. simpl. eauto.
    + intros o'. destruct (fPIC o) as [b |] eqn:Hb; simpl; [| discriminate].
      intros [= <-].
      assert (Hn : fPIC (configure (remove_fPIC o)) = None).
      { unfold configure, rm_safe_fPIC. destruct (shared (remove_fPIC o)); reflexivity. }
      rewrite Hn. split; [auto |]. split; [auto |].
      intros H. destruct (is_Some_None H).
  - split.
    + intros _. simpl. eauto.
    + intros o'. simpl. intros [= <-].
      unfold configure, rm_safe_fPIC.
      destruct (shared o) eqn:Hs; simpl.
      * split; [contradiction |]. split; [auto |].
        intros H. destruct (is_Some_None H).
      * rewrite Hs. split; [contradiction |]. split; [discriminate |]. auto.
Qed.

(** ** Published metadata *)

(** C7: the libraries appended are the lua-bindings library exactly when
    [with_lua_bindings] is true, then the debugger library, then the core
    library; on a fresh [cpp_info] they are the whole list. *)
Theorem package_info_libs (o : Options) :
  (forall c, libs (package_info o c)
     = (libs c ++ (if with_lua_bindings o then ["RmlLua"] else [])
                ++ ["RmlDebugger"; "RmlCore"])%list) /\
  libs (package_info o empty_cpp_info)
    = ((if with_lua_bindings o then ["RmlLua"] else [])
         ++ ["RmlDebugger"; "RmlCore"])%list /\
  (In "RmlLua" (libs (package_info o empty_cpp_info)) <-> with_lua_bindings o = true).
Proof.
  assert (G : forall c, libs (package_info o c)
     = (libs c ++ (if with_lua_bindings o then ["RmlLua"] else [])
                ++ ["RmlDebugger"; "RmlCore"])%list).
  { intros c. unfold package_info.
    destruct (matrix_mode_eqb _ _), (enable_rtti_and_exceptions o), (shared o),
      (with_thirdparty_containers o), (with_lua_bindings o); simpl;
      rewrite <- ?app_assoc; reflexivity. }
  split; [exact G |]. split; [apply (G empty_cpp_info) |].
  rewrite (G empty_cpp_info). simpl.
  destruct (with_lua_bindings o); simpl.
  - split; auto.
  - split; [| discriminate].
    intros [H | [H | H]]; [discriminate H | discriminate H | destruct H].
Qed.

(** C8: each define is published under its own condition, in the order
    row-major, custom RTTI, static linkage, no third-party containers; for the
    default options the defines are the static-linkage define alone. *)
Theorem package_info_defines (o : Options) :
  let ds := defines (package_info o empty_cpp_info) in
  (In "RMLUI_MATRIX_ROW_MAJOR" ds <-> matrix_mode o = row_major) /\
  (In "RMLUI_USE_CUSTOM_RTTI" ds <-> enable_rtti_and_exceptions o = false) /\
  (In "RMLUI_STATIC_LIB" ds <-> shared o = false) /\
  (In "RMLUI_NO_THIRDPARTY_CONTAINERS" ds <-> with_thirdparty_containers o = false) /\
  (forall d, In d ds ->
     In d ["RMLUI_MATRIX_ROW_MAJOR"; "RMLUI_USE_CUSTOM_RTTI"; "RMLUI_STATIC_LIB";
           "RMLUI_NO_THIRDPARTY_CONTAINERS"]) /\
  List.NoDup ds /\
  defines (package_info default_options empty_cpp_info) = ["RMLUI_STATIC_LIB"].
Proof.
  destruct o as [rtti fi pic mm sh lua tp].
  destruct rtti, mm, sh, lua, tp; cbn;
    (split; [| split; [| split; [| split; [| split; [| split]]]]]);
    try reflexivity;
    try (repeat constructor; cbn; intuition discriminate);
    try (intros d Hd; cbn in Hd; intuition (subst; cbn; auto 10));
    try (split; [intros H; cbn in H; intuition discriminate
                | intros H; try discriminate H; cbn; auto 10]).
Qed.

(** ** Build variables *)

(** With the container package among the dependencies, [generate] returns the
    whole table: ten variables, each by its rule. *)
Lemma generate_table (o : Options) (deps : gmap string CppInfo) (dep : CppInfo) :
  deps !! robin_hood = Some dep ->
  exists tc,
    generate o deps = Ok tc /\
    tc !! "BUILD_LUA_BINDINGS" = Some (PyBool (with_lua_bindings o)) /\
    tc !! "BUILD_SAMPLES" = Some (PyBool false) /\
    tc !! "CUSTOM_CONFIGURATION" = Some (PyBool true) /\
    tc !! "CUSTOM_INCLUDE_DIRS"
      = Some (PyStr (Py.join ";" (map Py.re_escape (includedirs dep)))) /\
    tc !! "DISABLE_RTTI_AND_EXCEPTIONS"
      = Some (PyBool (negb (enable_rtti_and_exceptions o))) /\
    tc !! "ENABLE_PRECOMPILED_HEADERS" = Some (PyBool true) /\
    tc !! "ENABLE_TRACY_PROFILING" = Some (PyBool false) /\
    tc !! "MATRIX_ROW_MAJOR"
      = Some (PyBool (matrix_mode_eqb (matrix_mode o) row_major)) /\
    tc !! "NO_FONT_INTERFACE_DEFAULT" = Some (PyBool false) /\
    tc !! "NO_THIRDPARTY_CONTAINERS"
      = Some (PyBool (negb (with_thirdparty_containers o))) /\
    size tc = 10%nat.
Proof.
  intros Hdep. unfold generate, getitem.
  rewrite Hdep. eexists. split; [reflexivity |].
  repeat split; reflexivity.
Qed.

(** Without the container package among the dependencies, [generate] stops
    at the lookup. *)
Lemma generate_KeyError (o : Options) (deps : gmap string CppInfo) :
  deps !! robin_hood = None -> generate o deps = Raise KeyError.
Proof.
  intros Hdep. unfold generate, getitem.
  rewrite Hdep. reflexivity.
Qed.

(** The container package is required exactly when the option is set, and so
    it is among the dependencies exactly then. *)
Lemma requirements_robin_hood (o : Options) :
  In "robin-hood-hashing/3.11.5" (requirements o)
  <-> with_thirdparty_containers o = true.
Proof.
  unfold requirements.
  destruct (font_interface o) as [[] |], (with_lua_bindings o),
    (with_thirdparty_containers o); cbn; intuition discriminate.
Qed.

Lemma dependencies_robin_hood (packages : string -> CppInfo) (o : Options) :
  dependencies_of packages (requirements o) !! robin_hood
  = if with_thirdparty_containers o then Some (packages robin_hood) else None.
Proof.
  unfold requirements, dependencies_of.
  destruct (font_interface o) as [[] |], (with_lua_bindings o),
    (with_thirdparty_containers o); reflexivity.
Qed.

(** *** Escaping and joining *)

Lemma append_nil_l (s : string) : "" ++ s = s.
Proof. reflexivity. Qed.

Lemma append_cons (c : ascii) (a b : string) : String c a ++ b = String c (a ++ b).
Proof. reflexivity. Qed.









(** C3, at the options that set [font_interface] to [None]: the container
    package is required and found, [generate] returns its table, and
    [NO_FONT_INTERFACE_DEFAULT] is false in it, because line 92 tests the
    option object for identity with [None] instead of comparing its value as
    line 100 does. *)
Theorem generate_font_interface_None (packages : string -> CppInfo) :
  font_interface no_font_options = None /\
  exists tc,
    generate no_font_options
      (dependencies_of packages (requirements no_font_options)) = Ok tc /\
    tc !! "NO_FONT_INTERFACE_DEFAULT" = Some (PyBool false).
Proof.
  split; [reflexivity |].
  assert (Hd : dependencies_of packages (requirements no_font_options) !! robin_hood
               = Some (packages robin_hood))
    by (now rewrite dependencies_robin_hood).
  destruct (generate_table no_font_options _ _ Hd)
    as (tc & Hgen & _ & _ & _ & _ & _ & _ & _ & _ & Hfont & _).
  eauto.
Qed.

(** C9, at the options that turn the third-party containers off: the
    container package is not required, so it is not among the dependencies,
    and [generate] raises [KeyError] at its lookup instead of returning a
    table. *)
Theorem generate_no_containers_KeyError (packages : string -> CppInfo) :
  requirements no_containers_options = ["freetype/2.13.0"] /\
  generate no_containers_options
    (dependencies_of packages (requirements no_containers_options))
  = Raise KeyError.
Proof.
  split; [reflexivity |].
  apply generate_KeyError.
  rewrite dependencies_robin_hood. reflexivity.
Qed.

(** ** The version comparison *)

(** A fact about every character, checked on all 256 of them. *)
Ltac by_cases_on_ascii c :=
  destruct c as [[] [] [] [] [] [] [] []]; vm_compute; try reflexivity; try discriminate.

Lemma is_digit_not_other (c : ascii) :
  is_digit c = true ->
  Py.is_space c = false /\ Ascii.eqb c "-" = false /\ Ascii.eqb c "+" = false
  /\ Ascii.eqb c "_" = false.
Proof.
  by_cases_on_ascii c; intros _; repeat split.
Qed.

Lemma is_digit_digit_of (c : ascii) :
  is_digit c = true -> Py.digit_of c = Some (Z.of_nat (nat_of_ascii c) - 48).
Proof.
  unfold is_digit, Py.digit_of.
  destruct (_ && _); [reflexivity | discriminate].
Qed.

Lemma int_digits_all_digits (s : string) (acc n : Z) :
  str_forallb is_digit s = true ->
  Py.int_digits s acc n
  = Some (decimal_from acc s, n + Z.of_nat (String.length s), EmptyString).
Proof.
  revert acc n. induction s as [| c s IH]; intros acc n H.
  - cbn. do 3 f_equal. lia.
  - cbn [str_forallb] in H. apply andb_true_iff in H as [Hc Hs].
    cbn [Py.int_digits decimal_from String.length].
    rewrite (is_digit_digit_of c Hc), (IH _ _ Hs).
    do 3 f_equal. lia.
Qed.

Lemma numeral_cons (s : string) :
  numeral s = true ->
  exists c r, s = String c r /\ is_digit c = true /\ str_forallb is_digit r = true
    /\ 1 + Z.of_nat (String.length r) <= Py.int_max_str_digits.
Proof.
  unfold numeral. intros H.
  apply andb_true_iff in H as [H Hlen]. apply andb_true_iff in H as [Hne Hd].
  destruct s as [| c r]; [discriminate |].
  cbn [str_forallb] in Hd. apply andb_true_iff in Hd as [Hc Hr].
  exists c, r. repeat split; auto.
  apply Z.leb_le in Hlen. cbn [String.length] in Hlen. lia.
Qed.

Lemma int_ascii_text (s : string) :
  Py.is_ascii s = true -> Py.int s = Py.parse_int s.
Proof. unfold Py.int. now intros ->. Qed.

Lemma is_digit_ascii (c : ascii) :
  is_digit c = true -> (Py.code c <? 128)%N = true.
Proof. by_cases_on_ascii c. Qed.

Lemma digits_ascii (s : string) :
  str_forallb is_digit s = true -> Py.is_ascii s = true.
Proof.
  induction s as [| c s IH]; [reflexivity |].
  cbn. intros H. apply andb_true_iff in H as [Hc Hs].
  now rewrite (is_digit_ascii c Hc), (IH Hs).
Qed.

(** [int()] reads a numeral as the number it denotes. *)
Lemma int_numeral (s : string) :
  numeral s = true -> Py.int s = Some (decimal_value s).
Proof.
  intros H. destruct (numeral_cons s H) as (c & r & -> & Hc & Hr & Hlen).
  destruct (is_digit_not_other c Hc) as (Hsp & Hminus & Hplus & _).
  rewrite int_ascii_text
    by (apply digits_ascii; cbn [str_forallb]; now rewrite Hc, Hr).
  unfold Py.parse_int. cbn [Py.lstrip]. rewrite Hsp, Hminus, Hplus.
  rewrite (is_digit_digit_of c Hc), (int_digits_all_digits r _ _ Hr).
  cbn [Py.all_space andb].
  apply Z.leb_le in Hlen. rewrite Hlen.
  unfold decimal_value. cbn [decimal_from].
  now replace (10 * 0 + (Z.of_nat (nat_of_ascii c) - 48))
    with (Z.of_nat (nat_of_ascii c) - 48) by lia.
Qed.

Lemma ints_numerals (pieces : list string) :
  forallb numeral pieces = true ->
  Py.ints pieces = Ok (map decimal_value pieces).
Proof.
  induction pieces as [| p rest IH]; [reflexivity |].
  cbn [forallb]. intros H. apply andb_true_iff in H as [Hp Hrest].
  cbn [Py.ints map]. rewrite (int_numeral p Hp), (IH Hrest). reflexivity.
Qed.

Lemma list_lt_lex_lt (a b : list Z) : Py.list_lt a b = true <-> lex_lt a b.
Proof.
  revert b. induction a as [| x a IH]; intros [| y b]; cbn.
  - split; [discriminate | inversion 1].
  - split; [constructor | reflexivity].
  - split; [discriminate | inversion 1].
  - destruct (Z.eqb_spec x y) as [-> | Hne].
    + rewrite IH. split; [now constructor |].
      inversion 1; subst; [lia | assumption].
    + split.
      * intros H. apply Z.ltb_lt in H. now constructor.
      * inversion 1; subst; [now apply Z.ltb_lt | congruence].
Qed.










Lemma int_empty : Py.int "" = None.
Proof. reflexivity. Qed.

Lemma ints_outcome (pieces : list string) :
  (exists l, Py.ints pieces = Ok l /\ length l = length pieces)
  \/ Py.ints pieces = Raise ValueError.
Proof.
  induction pieces as [| p rest IH]; [left; now exists [] |].
  cbn [Py.ints]. destruct (Py.int p) as [z |]; [| now right].
  destruct IH as [(l & -> & Hl) | ->]; [left | now right].
  exists (z :: l). cbn. now rewrite Hl.
Qed.


Lemma lazy_lt_semver_Ok (v1 v2 : string) (lv1 lv2 : list Z) :
  Py.ints (Py.split "." v1) = Ok lv1 ->
  Py.ints (Py.split "." v2) = Ok lv2 ->
  lazy_lt_semver v1 v2
  = Ok (Py.list_lt (firstn (Nat.min (length lv1) (length lv2)) lv1)
                   (firstn (Nat.min (length lv1) (length lv2)) lv2)).
Proof. unfold lazy_lt_semver. now intros -> ->. Qed.

Lemma lazy_lt_semver_outcome (v1 v2 : string) :
  (exists b, lazy_lt_semver v1 v2 = Ok b) \/ lazy_lt_semver v1 v2 = Raise ValueError.
Proof.
  unfold lazy_lt_semver.
  destruct (ints_outcome (Py.split "." v1)) as [(l1 & -> & _) | ->]; [| now right].
  destruct (ints_outcome (Py.split "." v2)) as [(l2 & -> & _) | ->]; [| now right].
  left. cbn. eauto.
Qed.


(** C1: on dotted-numeric version strings the comparison returns the Python
    order of the two component lists cut to the shorter length, which is the
    lexicographic order of the cut lists. So "5" is not below "5.15" and is
    accepted for sun-cc, and "4.9" is below "5" and is rejected for gcc. *)
Theorem lazy_lt_semver_dotted (v1 v2 : string) :
  dotted_numeric v1 = true ->
  dotted_numeric v2 = true ->
  let m := Nat.min (length (components v1)) (length (components v2)) in
  lazy_lt_semver v1 v2
    = Ok (Py.list_lt (firstn m (components v1)) (firstn m (components v2))) /\
  (lazy_lt_semver v1 v2 = Ok true
   <-> lex_lt (firstn m (components v1)) (firstn m (components v2))) /\
  lazy_lt_semver "5" "5.15" = Ok false /\
  lazy_lt_semver "4.9" "5" = Ok true /\
  (forall check, validate check (settings_of "sun-cc" "5") = ([], Ok tt)) /\
  (forall check,
     validate check (settings_of "gcc" "4.9") = ([], Raise ConanInvalidConfiguration)).
Proof.
  intros H1 H2 m.
  assert (Hrun : lazy_lt_semver v1 v2
    = Ok (Py.list_lt (firstn m (components v1)) (firstn m (components v2)))).
  { apply lazy_lt_semver_Ok; now apply ints_numerals. }
  split; [exact Hrun |]. split.
  - rewrite Hrun, <- list_lt_lex_lt. split; [now intros [= ->] | now intros ->].
  - repeat split; intros; reflexivity.
Qed.

Lemma lazy_lt_semver_dotted_witness :
  dotted_numeric "5" = true /\ dotted_numeric "5.15" = true /\
  lazy_lt_semver "5" "5.15" = Ok (Py.list_lt [5] [5]).
Proof.
  split; [reflexivity |]. split; [reflexivity |].
  apply (lazy_lt_semver_dotted "5" "5.15"); reflexivity.
Defined.

Lemma int_char_question : int_char "?" = false.
Proof. reflexivity. Qed.














(** ** The gate *)

Lemma minimum_versions_truthy (name min_version : string) :
  _minimum_compilers_version !! name = Some min_version ->
  truthy (Some min_version) = true.
Proof.
  unfold _minimum_compilers_version. intros H.
  repeat (apply lookup_insert_Some in H as [[_ <-] | [_ H]]; [reflexivity |]).
  rewrite lookup_empty in H. discriminate.
Qed.

(** The body of [validate] once the language-standard rule has passed. *)
Lemma validate_standard_passes check (settings : Settings) :
  standard_passes check settings ->
  validate check settings
  = match _minimum_compilers_version !! compiler settings with
    | None => ([lacks_information_warning], Ok tt)
    | Some min_version =>
        match lazy_lt_semver (compiler_version settings) min_version with
        | Raise e => ([], Raise e)
        | Ok true => ([], Raise ConanInvalidConfiguration)
        | Ok false => ([], Ok tt)
        end
    end.
Proof.
  unfold standard_passes, validate. intros Hstd.
  assert (Hcheck :
    match compiler_cppstd settings with
    | Some cppstd =>
        if truthy (Some cppstd) then check cppstd _minimum_cpp_standard else Ok tt
    | None => Ok tt
    end = Ok tt).
  { destruct (compiler_cppstd settings) as [cppstd |]; [| reflexivity].
    destruct Hstd as [-> | Hok]; [reflexivity |].
    rewrite Hok. now destruct (truthy _). }
  rewrite Hcheck.
  destruct (_minimum_compilers_version !! compiler settings) as [mv |] eqn:Hmv;
    [| reflexivity].
  now rewrite (minimum_versions_truthy _ _ Hmv).
Qed.

(** C5, as stated, fails: gcc 9 is not below its minimum, yet with C++11
    declared the language-standard rule makes [validate] raise the
    configuration error. *)
Lemma validate_standard_counterexample :
  ~ compiler_rule_decides check_min_cppstd_numeric gcc9_cpp11.
Proof.
  intros [[Hfail _] _].
  destruct (Hfail eq_refl) as (mv & Hmv & Hlt).
  vm_compute in Hmv. injection Hmv as <-. vm_compute in Hlt. discriminate.
Qed.

(** C5, amended: when no language standard is declared or the declared one
    passes its check, [validate] raises the configuration error exactly when
    the compiler is in the table and its version is below the minimum; for a
    compiler that is not in the table it writes one warning and returns. *)
Theorem validate_compiler_rule check (settings : Settings) :
  standard_passes check settings ->
  compiler_rule_decides check settings.
Proof.
  intros Hstd. unfold compiler_rule_decides, below_minimum.
  rewrite (validate_standard_passes check settings Hstd).
  destruct (_minimum_compilers_version !! compiler settings) as [mv |] eqn:Hmv.
  - split; [| discriminate].
    destruct (lazy_lt_semver (compiler_version settings) mv) as [[] | e] eqn:Hlt; cbn.
    + split; [eauto | reflexivity].
    + split; [discriminate |]. intros (mv' & [= <-] & Hlt'). congruence.
    + destruct (lazy_lt_semver_outcome (compiler_version settings) mv)
        as [[b Hb] | Hr]; [congruence |].
      assert (e = ValueError) as -> by congruence.
      split; [discriminate |]. intros (mv' & [= <-] & Hlt'). congruence.
  - split; [| reflexivity]. cbn.
    split; [discriminate |]. intros (mv' & Hmv' & _). discriminate.
Qed.

Lemma validate_compiler_rule_witness :
  standard_passes check_min_cppstd_numeric gcc9_cpp17 /\
  compiler_rule_decides check_min_cppstd_numeric gcc9_cpp17.
Proof.
  assert (Hstd : standard_passes check_min_cppstd_numeric gcc9_cpp17)
    by (right; reflexivity).
  split; [exact Hstd |].
  apply (validate_compiler_rule check_min_cppstd_numeric gcc9_cpp17 Hstd).
Defined.

(** ** Literal replacement *)

Section Replace.

Variables old new : string.
Hypothesis old_nonempty : old <> "".

Local Abbreviation rep := (Py.replace_scan old new 0).

Lemma replace_scan_skip (k : nat) (s : string) :
  Py.replace_scan old new k s = rep (str_drop k s).
Proof.
  revert k. induction s as [| c s IH]; intros [| k]; try reflexivity.
  cbn [Py.replace_scan str_drop]. apply IH.
Qed.

Lemma startswith_nonempty (s : string) : Py.startswith old s = true -> s <> "".
Proof.
  destruct old as [| a o]; [congruence |]. now destruct s.
Qed.

Lemma rep_match (s : string) :
  Py.startswith old s = true ->
  rep s = new ++ rep (str_drop (String.length old) s).
Proof.
  intros H. destruct s as [| c s]; [now apply startswith_nonempty in H |].
  cbn [Py.replace_scan]. rewrite H, replace_scan_skip.
  destruct old as [| a o]; [congruence |].
  replace (String.length (String a o) - 1)%nat with (String.length o)
    by (cbn [String.length]; lia).
  reflexivity.
Qed.

Lemma rep_no_match (c : ascii) (s : string) :
  Py.startswith old (String c s) = false ->
  rep (String c s) = String c (rep s).
Proof. intros H. cbn [Py.replace_scan]. now rewrite H. Qed.

Lemma str_drop_length (k : nat) (s : string) :
  (String.length (str_drop k s) <= String.length s - k)%nat.
Proof.
  revert s. induction k as [| k IH]; intros [| c s]; cbn; try lia.
  apply IH.
Qed.

(** Induction along the scan: a character is copied, or a match is
    replaced and the scan goes on after it. *)
Lemma replace_ind (P : string -> Prop) :
  P "" ->
  (forall c s, Py.startswith old (String c s) = false -> P s -> P (String c s)) ->
  (forall s, Py.startswith old s = true ->
             P (str_drop (String.length old) s) -> P s) ->
  forall s, P s.
Proof.
  intros Hnil Hcopy Hmatch s.
  remember (String.length s) as n eqn:Hn.
  revert s Hn. induction n as [n IH] using lt_wf_ind. intros s ->.
  destruct s as [| c s]; [exact Hnil |].
  destruct (Py.startswith old (String c s)) eqn:Hs.
  - apply Hmatch; [exact Hs |].
    eapply IH; [| reflexivity].
    pose proof (str_drop_length (String.length old) (String c s)) as Hlen.
    destruct old as [| a o]; [congruence |].
    cbn [String.length] in *. lia.
  - apply Hcopy; [exact Hs |]. eapply IH; [| reflexivity]. cbn. lia.
Qed.

End Replace.

Lemma startswith_app_compatible (t r x : string) :
  Py.startswith t (r ++ x) = true -> compatible t r = true.
Proof.
  revert r. induction t as [| a t IH]; intros [| b r]; try reflexivity.
  rewrite append_cons. cbn [Py.startswith compatible].
  intros H. apply andb_true_iff in H as [Hab Ht].
  now rewrite Hab, (IH r Ht).
Qed.

Lemma tails_nonempty (t p : string) : In t (tails p) -> t <> "".
Proof.
  induction p as [| c p IH]; cbn; [tauto |].
  intros [<- | H]; [discriminate | auto].
Qed.

Lemma tails_self (p : string) : p <> "" -> In p (tails p).
Proof. destruct p; [congruence | cbn; auto]. Qed.

Lemma tails_tail (a : ascii) (t p : string) :
  In (String a t) (tails p) -> t <> "" -> In t (tails p).
Proof.
  induction p as [| c p IH]; cbn; [tauto |].
  intros [[= -> ->] | H] Ht; right; [now apply tails_self | auto].
Qed.

Lemma occursb_drop (sub : string) (k : nat) (s : string) :
  occursb sub (str_drop k s) = true -> occursb sub s = true.
Proof.
  revert s. induction k as [| k IH]; intros [| c s]; cbn [str_drop]; auto.
  intros H. cbn [occursb]. rewrite (IH s H). apply orb_true_r.
Qed.

Lemma occursb_app (sub r x : string) :
  occursb sub (r ++ x) = true ->
  existsb (compatible sub) (tails r) = true \/ occursb sub x = true.
Proof.
  induction r as [| b r IH]; [now right |].
  rewrite append_cons. cbn [occursb tails existsb]. rewrite <- append_cons.
  intros H. apply orb_true_iff in H as [H | H].
  - left. now rewrite (startswith_app_compatible _ _ _ H).
  - destruct (IH H) as [Hex | Hx]; [left | now right].
    rewrite Hex. apply orb_true_r.
Qed.

Section Absent.

Variables pat old new : string.
Hypothesis old_nonempty : old <> "".
Hypothesis pat_nonempty : pat <> "".
Hypothesis apart : no_overlap pat new = true.

Lemma apart_tail (t : string) : In t (tails pat) -> compatible t new = false.
Proof.
  unfold no_overlap in apart. apply andb_true_iff in apart as [H _].
  rewrite forallb_forall in H. intros Ht. now apply negb_true_iff, H.
Qed.

Lemma apart_inside : existsb (compatible pat) (tails new) = false.
Proof.
  unfold no_overlap in apart. apply andb_true_iff in apart as [_ H].
  rewrite forallb_forall in H.
  destruct (existsb _ _) eqn:Hex; [| reflexivity].
  apply existsb_exists in Hex as (t & Ht & Hc).
  apply H in Ht. rewrite Hc in Ht. discriminate.
Qed.

(** A suffix of [pat] that begins the scanned text begins the text itself:
    it cannot begin inside a replacement. *)
Lemma startswith_scanned (s t : string) :
  In t (tails pat) ->
  Py.startswith t (Py.replace_scan old new 0 s) = true ->
  Py.startswith t s = true.
Proof.
  revert t. induction s as [| c s Hno IH | s Hyes IH] using (replace_ind old old_nonempty);
    intros t Ht H.
  - destruct t; [now apply tails_nonempty in Ht | discriminate].
  - rewrite (rep_no_match old new c s Hno) in H.
    destruct t as [| a t]; [reflexivity |].
    cbn [Py.startswith] in *. apply andb_true_iff in H as [-> H]. cbn.
    destruct t as [| a' t]; [reflexivity |].
    apply IH; [| exact H]. apply (tails_tail a); [exact Ht | discriminate].
  - rewrite (rep_match old new old_nonempty s Hyes) in H.
    apply startswith_app_compatible in H.
    rewrite (apart_tail t Ht) in H. discriminate.
Qed.

(** Replacing cannot bring [pat] into a text that did not hold it. *)
Lemma occursb_scanned (s : string) :
  occursb pat (Py.replace_scan old new 0 s) = true -> occursb pat s = true.
Proof.
  induction s as [| c s Hno IH | s Hyes IH] using (replace_ind old old_nonempty); intros H.
  - exact H.
  - rewrite (rep_no_match old new c s Hno) in H.
    cbn [occursb] in H. apply orb_true_iff in H as [H | H].
    + rewrite <- (rep_no_match old new c s Hno) in H.
      apply (startswith_scanned _ _ (tails_self pat pat_nonempty)) in H.
      cbn [occursb]. now rewrite H.
    + cbn [occursb]. rewrite (IH H). apply orb_true_r.
  - rewrite (rep_match old new old_nonempty s Hyes) in H.
    apply occursb_app in H as [H | H].
    + rewrite apart_inside in H. discriminate.
    + apply (occursb_drop _ _ _ (IH H)).
Qed.

End Absent.

(** After a replacement whose search text shares nothing with its
    replacement, the search text is gone. *)
Lemma occursb_replaced (old new : string) (s : string) :
  old <> "" ->
  no_overlap old new = true ->
  occursb old (Py.replace_scan old new 0 s) = false.
Proof.
  intros Hold Hapart.
  induction s as [| c s Hno IH | s Hyes IH] using (replace_ind old Hold).
  - destruct old; [congruence | reflexivity].
  - rewrite (rep_no_match old new c s Hno).
    cbn [occursb]. rewrite IH, orb_false_r.
    destruct (Py.startswith old (String c (Py.replace_scan old new 0 s))) eqn:H;
      [| reflexivity].
    rewrite <- (rep_no_match old new c s Hno) in H.
    apply (startswith_scanned old old new Hold Hapart _ _ (tails_self old Hold)) in H.
    congruence.
  - rewrite (rep_match old new Hold s Hyes).
    destruct (occursb old (new ++ _)) eqn:H; [| reflexivity].
    apply occursb_app in H as [H | H].
    + rewrite (apart_inside old new Hapart) in H. discriminate.
    + congruence.
Qed.

(** A text without the search text is left as it is. *)
Lemma replace_scan_absent (old new : string) (s : string) :
  occursb old s = false -> Py.replace_scan old new 0 s = s.
Proof.
  induction s as [| c s IH]; [reflexivity |].
  cbn [occursb]. intros H. apply orb_false_iff in H as [Hs H].
  cbn [Py.replace_scan]. now rewrite Hs, (IH H).
Qed.

Lemma replace_nonempty (s old new : string) :
  old <> "" -> Py.replace s old new = Py.replace_scan old new 0 s.
Proof. destruct old; [congruence | reflexivity]. Qed.

Lemma find_from_occursb (sub s : string) (i : Z) :
  0 <= i ->
  (Py.find_from sub s i =? -1) = negb (occursb sub s).
Proof.
  revert i. induction s as [| c s IH]; intros i Hi; cbn [Py.find_from occursb].
  - destruct (Py.startswith sub ""); cbn; [apply Z.eqb_neq; lia | reflexivity].
  - destruct (Py.startswith sub (String c s)); cbn; [apply Z.eqb_neq; lia |].
    apply IH. destruct (Py.continuation c); lia.
Qed.

Lemma find_occursb (s sub : string) :
  (Py.find s sub =? -1) = negb (occursb sub s).
Proof. apply find_from_occursb. lia. Qed.

(** *** The rules in sequence *)

Lemma patch_text_absent_kept (pat : string) (rules : list (string * string)) :
  pat <> "" ->
  forallb (fun r => negb (String.eqb (fst r) "")) rules = true ->
  forallb (fun r => no_overlap pat (snd r)) rules = true ->
  forall c, occursb pat c = false -> occursb pat (patch_text rules c) = false.
Proof.
  intros Hpat. induction rules as [| [old new] rules IH]; intros Hne Hap c Hc;
    [exact Hc |].
  cbn [forallb fst snd] in Hne, Hap.
  apply andb_true_iff in Hne as [Hold Hne], Hap as [Hon Hap].
  apply negb_true_iff, String.eqb_neq in Hold.
  cbn [patch_text fold_left fst snd]. apply (IH Hne Hap).
  rewrite (replace_nonempty _ _ _ Hold).
  destruct (occursb pat (Py.replace_scan old new 0 c)) eqn:H; [| reflexivity].
  apply (occursb_scanned pat old new Hold Hpat Hon) in H. congruence.
Qed.

Lemma stable_nonempty (rules : list (string * string)) :
  stable rules = true ->
  forallb (fun r => negb (String.eqb (fst r) "")) rules = true.
Proof.
  induction rules as [| [old new] rules IH]; [reflexivity |].
  cbn [stable forallb fst]. intros H.
  repeat (apply andb_true_iff in H as [H ?]).
  now rewrite H, IH.
Qed.

(** After stable rules have been applied, none of their search texts is
    left. *)
Lemma patch_text_clean (rules : list (string * string)) :
  stable rules = true ->
  forall c r, In r rules -> occursb (fst r) (patch_text rules c) = false.
Proof.
  induction rules as [| [old new] rules IH]; intros Hst c r Hr; [destruct Hr |].
  pose proof (stable_nonempty _ Hst) as Hne.
  cbn [stable] in Hst.
  apply andb_true_iff in Hst as [Hst Hrest], Hst as [Hst Hlater], Hst as [Hold Hself].
  cbn [forallb fst] in Hne. apply andb_true_iff in Hne as [_ Hne].
  apply negb_true_iff, String.eqb_neq in Hold.
  cbn [patch_text fold_left fst snd]. destruct Hr as [<- | Hr].
  - cbn [fst]. apply (patch_text_absent_kept old rules Hold Hne Hlater).
    rewrite (replace_nonempty _ _ _ Hold). now apply occursb_replaced.
  - now apply IH.
Qed.

(** Rules whose search texts are all absent change nothing. *)
Lemma patch_text_fixed (rules : list (string * string)) (c : string) :
  (forall r, In r rules -> fst r <> "" /\ occursb (fst r) c = false) ->
  patch_text rules c = c.
Proof.
  induction rules as [| [old new] rules IH]; intros H; [reflexivity |].
  cbn [patch_text fold_left fst snd].
  destruct (H (old, new) (or_introl eq_refl)) as [Hold Habs]. cbn [fst] in *.
  rewrite (replace_nonempty _ _ _ Hold), (replace_scan_absent _ _ _ Habs).
  apply IH. intros r Hr. apply H. now right.
Qed.

Lemma replace_mapping_stable : stable replace_mapping = true.
Proof. vm_compute. reflexivity. Qed.

Lemma robin_hood_stable : stable [(robin_hood_search, robin_hood_replace)] = true.
Proof. vm_compute. reflexivity. Qed.

(** ** Patching the sources *)

Lemma world_eta (w : World) : {| files := files w; warnings := warnings w |} = w.
Proof. now destruct w. Qed.

Lemma replace_in_file_lenient (path pat new : string) (w : World) (c : string) :
  files w !! path = Some c ->
  pat <> "" ->
  exists ws,
    replace_in_file path pat new false w
    = ({| files := <[path := Py.replace c pat new]> (files w);
          warnings := (warnings w ++ ws)%list |}, Ok tt).
Proof.
  intros Hc Hpat. unfold replace_in_file. rewrite Hc, find_occursb.
  destruct (occursb pat c) eqn:Hocc; cbn [negb].
  - exists []. unfold save. now rewrite app_nil_r.
  - exists [not_found_message pat path]. unfold warn. f_equal. f_equal.
    rewrite (replace_nonempty _ _ _ Hpat), (replace_scan_absent _ _ _ Hocc).
    symmetry. now apply insert_id.
Qed.

Lemma replace_each_Ok (path : string) (rules : list (string * string)) :
  (forall r, In r rules -> fst r <> "") ->
  forall (w : World) (c : string),
    files w !! path = Some c ->
    exists ws,
      replace_each path rules w
      = ({| files := <[path := patch_text rules c]> (files w);
            warnings := (warnings w ++ ws)%list |}, Ok tt).
Proof.
  induction rules as [| [pat new] rules IH]; intros Hne w c Hc.
  - exists []. cbn. rewrite app_nil_r, (insert_id _ _ _ Hc). now rewrite world_eta.
  - assert (Hpat : pat <> "") by apply (Hne (pat, new) (or_introl eq_refl)).
    destruct (replace_in_file_lenient path pat new w c Hc Hpat) as [ws1 Hstep].
    cbn [replace_each]. rewrite Hstep.
    destruct (IH (fun r Hr => Hne r (or_intror Hr))
                {| files := <[path := Py.replace c pat new]> (files w);
                   warnings := (warnings w ++ ws1)%list |}
                (Py.replace c pat new)) as [ws2 Hrest];
      [apply lookup_insert_eq |].
    rewrite Hrest. cbn [files warnings patch_text fold_left fst snd].
    exists (ws1 ++ ws2)%list. rewrite insert_insert_eq, app_assoc. reflexivity.
Qed.

Lemma replace_each_missing (path : string) (rules : list (string * string)) (w : World) :
  files w !! path = None -> rules <> [] ->
  replace_each path rules w = (w, Raise FileNotFoundError).
Proof.
  intros Hc Hne. destruct rules as [| [pat new] rules]; [congruence |].
  cbn [replace_each]. unfold replace_in_file. now rewrite Hc.
Qed.

Lemma replace_mapping_nonempty (r : string * string) :
  In r replace_mapping -> fst r <> "".
Proof.
  pose proof (stable_nonempty _ replace_mapping_stable) as H.
  rewrite forallb_forall in H. intros Hr.
  now apply String.eqb_neq, negb_true_iff, H.
Qed.

Lemma last_char_app (a b : string) :
  b <> "" -> last_char (a ++ b) = last_char b.
Proof.
  intros Hb. induction a as [| c a IH]; [reflexivity |].
  rewrite append_cons. cbn [last_char]. rewrite IH.
  destruct (a ++ b) eqn:E; [| reflexivity].
  destruct a; [rewrite append_nil_l in E; congruence | discriminate].
Qed.

Lemma path_join_last (a b : string) :
  b <> "" -> Py.startswith "/" b = false ->
  last_char (Py.path_join a b) = last_char b.
Proof.
  intros Hb Hrel. unfold Py.path_join. rewrite Hrel.
  destruct (_ || _); [now apply last_char_app |].
  rewrite last_char_app; [apply (last_char_app "/" b Hb) |].
  destruct b; [congruence | discriminate].
Qed.

Lemma paths_differ (source_folder : string) :
  cmakelists_path source_folder <> config_path source_folder.
Proof.
  intros H. apply (f_equal last_char) in H. revert H.
  unfold cmakelists_path, config_path.
  rewrite !path_join_last by (reflexivity || discriminate).
  discriminate.
Qed.

(** The CMakeLists pass on a tree that has been patched: nothing is written,
    only warnings are added. *)
Lemma replace_each_again (path : string) (w : World) (c : string) :
  files w !! path = Some (patch_text replace_mapping c) ->
  exists ws,
    replace_each path replace_mapping w
    = ({| files := files w; warnings := (warnings w ++ ws)%list |}, Ok tt).
Proof.
  intros Hc.
  destruct (replace_each_Ok path replace_mapping replace_mapping_nonempty w _ Hc)
    as [ws Hrun].
  exists ws. rewrite Hrun. f_equal. f_equal.
  rewrite patch_text_fixed; [now apply insert_id |].
  intros r Hr. split; [now apply replace_mapping_nonempty |].
  now apply patch_text_clean; [apply replace_mapping_stable |].
Qed.

Lemma robin_hood_gone (c : string) :
  occursb robin_hood_search (Py.replace c robin_hood_search robin_hood_replace) = false.
Proof.
  pose proof (patch_text_clean _ robin_hood_stable c
                (robin_hood_search, robin_hood_replace) (or_introl eq_refl)) as H.
  exact H.
Qed.

(** A second run after a first one that completed: the files stay as the
    first run left them; the run completes when the third-party containers
    are off and raises at the strict rule when they are on. *)
Lemma _patch_sources_again (o : Options) (source_folder : string) (w w1 : World) :
  _patch_sources o source_folder w = (w1, Ok tt) ->
  exists w2,
    _patch_sources o source_folder w1
    = (w2, if with_thirdparty_containers o then Raise ConanException else Ok tt)
    /\ files w2 = files w1.
Proof.
  unfold _patch_sources. intros Hfirst.
  destruct (files w !! cmakelists_path source_folder) as [c1 |] eqn:Hc1.
  2: { rewrite (replace_each_missing _ _ _ Hc1) in Hfirst by discriminate.
       discriminate. }
  destruct (replace_each_Ok _ replace_mapping replace_mapping_nonempty w c1 Hc1)
    as [ws Hrun].
  rewrite Hrun in Hfirst.
  destruct (with_thirdparty_containers o) eqn:Htp.
  - unfold replace_in_file in Hfirst. cbn [files] in Hfirst.
    destruct (_ !! config_path source_folder) as [c2 |] eqn:Hc2; [| discriminate].
    rewrite find_occursb in Hfirst.
    destruct (occursb robin_hood_search c2); cbn [negb] in Hfirst;
      [| unfold strict_default in Hfirst; discriminate].
    apply (f_equal fst) in Hfirst. cbn [fst] in Hfirst. subst w1.
    match goal with
    | |- context [replace_each _ _ ?w0] =>
        destruct (replace_each_again (cmakelists_path source_folder) w0 c1)
          as [ws2 Hrun2]
    end.
    { unfold save. cbn [files].
      rewrite lookup_insert_ne by (apply not_eq_sym, paths_differ).
      apply lookup_insert_eq. }
    rewrite Hrun2. unfold replace_in_file, save. cbn [files].
    rewrite lookup_insert_eq, find_occursb, robin_hood_gone.
    cbn [negb]. unfold strict_default.
    eexists. split; [reflexivity | reflexivity].
  - apply (f_equal fst) in Hfirst. cbn [fst] in Hfirst. subst w1.
    match goal with
    | |- context [replace_each _ _ ?w0] =>
        destruct (replace_each_again (cmakelists_path source_folder) w0 c1)
          as [ws2 Hrun2]
    end.
    { cbn [files]. apply lookup_insert_eq. }
    rewrite Hrun2. eexists. split; [reflexivity | reflexivity].
Qed.

Lemma sample_world_patched :
  snd (_patch_sources default_options "/src" sample_world) = Ok tt.
Proof. vm_compute. reflexivity. Qed.

(** C2, as stated, fails: on the sample tree with the default options the
    first run completes and the second raises, because the rule for Config.h
    is strict and its search text is gone. *)
Lemma _patch_sources_twice_counterexample :
  ~ reapplies_cleanly default_options "/src" sample_world.
Proof.
  intros H.
  destruct (_patch_sources default_options "/src" sample_world) as [w1 r] eqn:Hfirst.
  pose proof sample_world_patched as Hr. rewrite Hfirst in Hr. cbn in Hr. subst r.
  destruct (H w1 Hfirst) as (w2 & Hsecond & _).
  destruct (_patch_sources_again _ _ _ _ Hfirst) as (w2' & Hsecond' & _).
  rewrite Hsecond in Hsecond'. discriminate.
Qed.

(** C2, amended: after a run that completed, a second run leaves every file
    as the first run left it; it completes without error when
    [with_thirdparty_containers] is false, and when it is true it raises at
    the strict rule for Config.h, whose search text the first run replaced. *)
Theorem _patch_sources_twice (o : Options) (source_folder : string) (w w1 : World) :
  _patch_sources o source_folder w = (w1, Ok tt) ->
  exists w2 outcome,
    _patch_sources o source_folder w1 = (w2, outcome) /\
    files w2 = files w1 /\
    (with_thirdparty_containers o = false -> outcome = Ok tt) /\
    (with_thirdparty_containers o = true -> outcome = Raise ConanException).
Proof.
  intros Hfirst.
  destruct (_patch_sources_again o source_folder w w1 Hfirst) as (w2 & Hsecond & Hfiles).
  exists w2, (if with_thirdparty_containers o then Raise ConanException else Ok tt).
  split; [exact Hsecond |]. split; [exact Hfiles |].
  destruct (with_thirdparty_containers o); split; congruence.
Qed.

Lemma _patch_sources_twice_witness :
  let w1 := fst (_patch_sources default_options "/src" sample_world) in
  _patch_sources default_options "/src" sample_world = (w1, Ok tt) /\
  exists w2 outcome,
    _patch_sources default_options "/src" w1 = (w2, outcome) /\
    files w2 = files w1 /\
    (with_thirdparty_containers default_options = false -> outcome = Ok tt) /\
    (with_thirdparty_containers default_options = true ->
     outcome = Raise ConanException).
Proof.
  split; [vm_compute; reflexivity |].
  apply (_patch_sources_twice default_options "/src" sample_world).
  vm_compute. reflexivity.
Defined.

(** * Further properties *)

(** ** The version comparison as an order *)

Lemma list_lt_truncated (a b : list Z) :
  Py.list_lt (firstn (Nat.min (length a) (length b)) a)
             (firstn (Nat.min (length a) (length b)) b)
  = prefix_lt a b.
Proof.
  revert b. induction a as [| x a IH]; intros [| y b]; try reflexivity.
  cbn [length Nat.min firstn Py.list_lt prefix_lt]. now rewrite IH.
Qed.

Lemma prefix_lt_irrefl (a : list Z) : prefix_lt a a = false.
Proof.
  induction a as [| x a IH]; [reflexivity |].
  cbn. now rewrite Z.eqb_refl.
Qed.

Lemma prefix_lt_trans (a b c : list Z) :
  prefix_lt a b = true -> prefix_lt b c = true -> prefix_lt a c = true.
Proof.
  revert b c. induction a as [| x a IH]; intros [| y b] [| z c]; cbn; try discriminate.
  destruct (Z.eqb_spec x y) as [Hxy | Hxy], (Z.eqb_spec y z) as [Hyz | Hyz],
    (Z.eqb_spec x z) as [Hxz | Hxz]; try lia; intros H1 H2; eauto;
    try apply Z.ltb_lt in H1; try apply Z.ltb_lt in H2;
    try apply Z.ltb_lt; try lia.
Qed.

Lemma prefix_lt_asym (a b : list Z) :
  prefix_lt a b = true -> prefix_lt b a = false.
Proof.
  intros H. destruct (prefix_lt b a) eqn:H'; [| reflexivity].
  pose proof (prefix_lt_trans _ _ _ H H') as Haa.
  rewrite prefix_lt_irrefl in Haa. discriminate.
Qed.

Lemma prefix_lt_app_r (a b : list Z) : prefix_lt a (a ++ b) = false.
Proof.
  induction a as [| x a IH]; [reflexivity |].
  cbn. now rewrite Z.eqb_refl.
Qed.

Lemma prefix_lt_app_l (a b : list Z) : prefix_lt (a ++ b) a = false.
Proof.
  induction a as [| x a IH]; [now destruct b |].
  cbn. now rewrite Z.eqb_refl.
Qed.

(** What a returned boolean says about the two strings. *)
Lemma lazy_lt_semver_inv (v1 v2 : string) (r : bool) :
  lazy_lt_semver v1 v2 = Ok r ->
  exists lv1 lv2,
    Py.ints (Py.split "." v1) = Ok lv1 /\
    Py.ints (Py.split "." v2) = Ok lv2 /\
    r = prefix_lt lv1 lv2.
Proof.
  unfold lazy_lt_semver.
  destruct (Py.ints (Py.split "." v1)) as [lv1 | e1]; [| discriminate].
  destruct (Py.ints (Py.split "." v2)) as [lv2 | e2]; [| discriminate].
  cbn. rewrite list_lt_truncated. intros [= <-]. eauto.
Qed.

Lemma lazy_lt_semver_prefix_lt (v1 v2 : string) (lv1 lv2 : list Z) :
  Py.ints (Py.split "." v1) = Ok lv1 ->
  Py.ints (Py.split "." v2) = Ok lv2 ->
  lazy_lt_semver v1 v2 = Ok (prefix_lt lv1 lv2).
Proof.
  intros H1 H2. rewrite (lazy_lt_semver_Ok v1 v2 lv1 lv2 H1 H2).
  now rewrite list_lt_truncated.
Qed.

(** X1: "below" is a strict order on the versions it compares: from
    [a] below [b] and [b] below [c] follows [a] below [c], [b] is not below
    [a], and no version is below itself. *)
Theorem lazy_lt_semver_strict_order (a b c : string) :
  lazy_lt_semver a b = Ok true ->
  lazy_lt_semver b c = Ok true ->
  lazy_lt_semver a c = Ok true /\
  lazy_lt_semver b a = Ok false /\
  lazy_lt_semver a a = Ok false.
Proof.
  intros Hab Hbc.
  apply lazy_lt_semver_inv in Hab as (la & lb & Ha & Hb & Hlt1).
  apply lazy_lt_semver_inv in Hbc as (lb' & lc & Hb' & Hc & Hlt2).
  assert (lb' = lb) as -> by congruence.
  rewrite (lazy_lt_semver_prefix_lt a c la lc Ha Hc),
          (lazy_lt_semver_prefix_lt b a lb la Hb Ha),
          (lazy_lt_semver_prefix_lt a a la la Ha Ha).
  rewrite (prefix_lt_trans la lb lc), (prefix_lt_asym la lb), prefix_lt_irrefl;
    auto.
Qed.

Lemma lazy_lt_semver_strict_order_witness :
  lazy_lt_semver "4.9" "5.0" = Ok true /\
  lazy_lt_semver "5.0" "5.1.2" = Ok true /\
  lazy_lt_semver "4.9" "5.1.2" = Ok true /\
  lazy_lt_semver "5.0" "4.9" = Ok false /\
  lazy_lt_semver "4.9" "4.9" = Ok false.
Proof.
  split; [reflexivity |]. split; [reflexivity |].
  apply (lazy_lt_semver_strict_order "4.9" "5.0" "5.1.2"); reflexivity.
Defined.

Lemma split_cons (c : ascii) (s : string) :
  exists p r, Py.split c s = p :: r.
Proof.
  induction s as [| a s (p & r & IH)]; [now exists "", [] |].
  cbn [Py.split]. destruct (Ascii.eqb a c); [eauto |].
  rewrite IH. eauto.
Qed.

Lemma split_app (c : ascii) (a b : string) :
  Py.split c (a ++ String c b) = (Py.split c a ++ Py.split c b)%list.
Proof.
  induction a as [| x a IH].
  - rewrite append_nil_l. cbn [Py.split]. now rewrite Ascii.eqb_refl.
  - rewrite append_cons. cbn [Py.split]. rewrite IH.
    destruct (Ascii.eqb x c); [reflexivity |].
    destruct (split_cons c a) as (p & r & ->). reflexivity.
Qed.

Lemma ints_app (l1 l2 : list string) (z1 z2 : list Z) :
  Py.ints l1 = Ok z1 -> Py.ints l2 = Ok z2 ->
  Py.ints (l1 ++ l2) = Ok (z1 ++ z2)%list.
Proof.
  revert z1. induction l1 as [| p l1 IH]; intros z1.
  - cbn. now intros [= <-].
  - cbn [Py.ints app]. destruct (Py.int p) as [z |]; [| discriminate].
    destruct (Py.ints l1) as [zs |] eqn:Hl1; [| discriminate].
    cbn. intros [= <-] H2. now rewrite (IH zs eq_refl H2).
Qed.

(** X2: a version and the same version with further components appended
    are never below one another, whatever the further components are. *)
Theorem lazy_lt_semver_extension (v w : string) (lv lw : list Z) :
  Py.ints (Py.split "." v) = Ok lv ->
  Py.ints (Py.split "." w) = Ok lw ->
  lazy_lt_semver v (v ++ "." ++ w) = Ok false /\
  lazy_lt_semver (v ++ "." ++ w) v = Ok false.
Proof.
  intros Hv Hw.
  assert (Hvw : Py.ints (Py.split "." (v ++ "." ++ w)) = Ok (lv ++ lw)%list).
  { change (v ++ "." ++ w) with (v ++ String "." w).
    rewrite split_app. now apply ints_app. }
  rewrite (lazy_lt_semver_prefix_lt _ _ _ _ Hv Hvw),
          (lazy_lt_semver_prefix_lt _ _ _ _ Hvw Hv).
  now rewrite prefix_lt_app_r, prefix_lt_app_l.
Qed.

Lemma lazy_lt_semver_extension_witness :
  Py.ints (Py.split "." "5") = Ok [5] /\
  Py.ints (Py.split "." "15.2") = Ok [15; 2] /\
  lazy_lt_semver "5" ("5" ++ "." ++ "15.2") = Ok false /\
  lazy_lt_semver ("5" ++ "." ++ "15.2") "5" = Ok false.
Proof.
  split; [reflexivity |]. split; [reflexivity |].
  apply (lazy_lt_semver_extension "5" "15.2" [5] [15; 2]); reflexivity.
Defined.

(** ** The gate, further *)

(** Every minimum in the table is a dotted-numeric version. *)
Lemma minimum_versions_dotted (name min_version : string) :
  _minimum_compilers_version !! name = Some min_version ->
  dotted_numeric min_version = true.
Proof.
  unfold _minimum_compilers_version. intros H.
  repeat (apply lookup_insert_Some in H as [[_ <-] | [_ H]]; [reflexivity |]).
  rewrite lookup_empty in H. discriminate.
Qed.

(** X3: every compiler of the table passes at exactly its minimum version,
    with no warning. *)
Theorem validate_at_minimum check (name min_version : string) :
  _minimum_compilers_version !! name = Some min_version ->
  validate check (settings_of name min_version) = ([], Ok tt).
Proof.
  intros Hmv.
  rewrite (validate_standard_passes check (settings_of name min_version) I).
  cbn [compiler compiler_version settings_of]. rewrite Hmv.
  pose proof (ints_numerals _ (minimum_versions_dotted _ _ Hmv)) as Hints.
  rewrite (lazy_lt_semver_prefix_lt _ _ _ _ Hints Hints), prefix_lt_irrefl.
  reflexivity.
Qed.

Lemma validate_at_minimum_witness :
  _minimum_compilers_version !! "apple-clang" = Some "5.1" /\
  validate check_min_cppstd_numeric (settings_of "apple-clang" "5.1") = ([], Ok tt).
Proof.
  split; [reflexivity |].
  apply (validate_at_minimum check_min_cppstd_numeric "apple-clang" "5.1").
  reflexivity.
Defined.

(** X4: for a dotted-numeric installed version and a passing language
    standard, [validate] never raises [ValueError]: it returns, or raises the
    configuration error, and for a compiler of the table the order of the two
    component lists decides which. *)
Theorem validate_dotted_version check (settings : Settings) :
  standard_passes check settings ->
  dotted_numeric (compiler_version settings) = true ->
  (snd (validate check settings) = Ok tt
   \/ snd (validate check settings) = Raise ConanInvalidConfiguration) /\
  (forall min_version,
     _minimum_compilers_version !! compiler settings = Some min_version ->
     validate check settings
     = ([], if prefix_lt (components (compiler_version settings))
                         (components min_version)
            then Raise ConanInvalidConfiguration else Ok tt)).
Proof.
  intros Hstd Hver.
  rewrite (validate_standard_passes check settings Hstd).
  destruct (_minimum_compilers_version !! compiler settings) as [mv |] eqn:Hmv.
  - pose proof (ints_numerals _ Hver) as Hv.
    pose proof (ints_numerals _ (minimum_versions_dotted _ _ Hmv)) as Hm.
    rewrite (lazy_lt_semver_prefix_lt _ _ _ _ Hv Hm).
    fold (components (compiler_version settings)) (components mv).
    split.
    + destruct (prefix_lt _ _); cbn; auto.
    + intros mv' [= <-]. now destruct (prefix_lt _ _).
  - split; [left; reflexivity | discriminate].
Qed.

Lemma validate_dotted_version_witness :
  standard_passes check_min_cppstd_numeric gcc9_cpp17 /\
  dotted_numeric (compiler_version gcc9_cpp17) = true /\
  validate check_min_cppstd_numeric gcc9_cpp17 = ([], Ok tt).
Proof.
  assert (Hstd : standard_passes check_min_cppstd_numeric gcc9_cpp17)
    by (right; reflexivity).
  split; [exact Hstd |]. split; [reflexivity |].
  apply (proj2 (validate_dotted_version check_min_cppstd_numeric gcc9_cpp17
                  Hstd eq_refl) "5" eq_refl).
Defined.

(** X5: a declared language standard that fails its check decides the
    outcome: the exception of the check is raised, no warning is written and
    the compiler is not looked at. *)
Theorem validate_standard_first check (settings : Settings) (cppstd : string) (e : exn) :
  compiler_cppstd settings = Some cppstd ->
  cppstd <> "" ->
  check cppstd _minimum_cpp_standard = Raise e ->
  validate check settings = ([], Raise e).
Proof.
  intros Hstd Hne Hcheck. unfold validate. rewrite Hstd. unfold truthy.
  apply String.eqb_neq in Hne. rewrite Hne. cbn [negb]. now rewrite Hcheck.
Qed.

Lemma validate_standard_first_witness :
  compiler_cppstd gcc9_cpp11 = Some "11" /\
  "11" <> "" /\
  check_min_cppstd_numeric "11" _minimum_cpp_standard = Raise ConanInvalidConfiguration /\
  validate check_min_cppstd_numeric gcc9_cpp11 = ([], Raise ConanInvalidConfiguration).
Proof.
  split; [reflexivity |]. split; [discriminate |]. split; [reflexivity |].
  apply (validate_standard_first check_min_cppstd_numeric gcc9_cpp11 "11"
           ConanInvalidConfiguration); [reflexivity | discriminate | reflexivity].
Defined.

(** X6: [validate] writes at most one warning, the one about missing
    compiler information, and only on a run that returns normally for a
    compiler the table does not list; a run that raises writes none. *)
Theorem validate_warnings check (settings : Settings) :
  validate check settings = ([], snd (validate check settings))
  \/ (validate check settings = ([lacks_information_warning], Ok tt)
      /\ _minimum_compilers_version !! compiler settings = None).
Proof.
  unfold validate.
  destruct (match compiler_cppstd settings with
            | Some cppstd =>
                if truthy (Some cppstd)
                then check cppstd _minimum_cpp_standard else Ok tt
            | None => Ok tt
            end) as [[] | e]; [| now left].
  destruct (_minimum_compilers_version !! compiler settings) as [mv |] eqn:Hmv.
  - rewrite (minimum_versions_truthy _ _ Hmv). cbn [negb]. left.
    now destruct (lazy_lt_semver _ _) as [[] | e].
  - right. split; reflexivity.
Qed.

(** ** Options, further *)

(** X7: [configure] can be run again without effect, and off Windows
    [config_options] changes nothing, but on Windows a second
    [config_options] raises, since the option it deletes is gone. *)
Theorem option_hooks_rerun (o : Options) :
  configure (configure o) = configure o /\
  (forall settings_os, settings_os <> "Windows" -> config_options settings_os o = Ok o) /\
  (forall o', config_options "Windows" o = Ok o' ->
              config_options "Windows" o' = Raise ConanException).
Proof.
  split; [| split].
  - unfold configure, rm_safe_fPIC.
    destruct (shared o) eqn:Hs; cbn; rewrite Hs; reflexivity.
  - intros settings_os Hos. unfold config_options.
    apply String.eqb_neq in Hos. now rewrite Hos.
  - intros o'. unfold config_options, del_fPIC. cbn.
    destruct (fPIC o); [| discriminate]. now intros [= <-].
Qed.

(** X8: resolving the options touches [fPIC] only: the six other options
    come out as they went in. *)
Theorem resolve_options_others (settings_os : string) (o o' : Options) :
  resolve_options settings_os o = Ok o' ->
  enable_rtti_and_exceptions o' = enable_rtti_and_exceptions o /\
  font_interface o' = font_interface o /\
  matrix_mode o' = matrix_mode o /\
  shared o' = shared o /\
  with_lua_bindings o' = with_lua_bindings o /\
  with_thirdparty_containers o' = with_thirdparty_containers o.
Proof.
  unfold resolve_options, config_options, del_fPIC, configure, rm_safe_fPIC.
  destruct o as [rtti fi pic mm sh lua tp]. cbn.
  destruct (String.eqb settings_os "Windows"), pic, sh; cbn;
    try discriminate; intros [= <-]; cbn; repeat split; reflexivity.
Qed.

Lemma resolve_options_others_witness :
  resolve_options "Windows" default_options = Ok (remove_fPIC default_options) /\
  enable_rtti_and_exceptions (remove_fPIC default_options) = true /\
  font_interface (remove_fPIC default_options) = Some freetype /\
  matrix_mode (remove_fPIC default_options) = column_major /\
  shared (remove_fPIC default_options) = false /\
  with_lua_bindings (remove_fPIC default_options) = false /\
  with_thirdparty_containers (remove_fPIC default_options) = true.
Proof.
  split; [reflexivity |].
  apply (resolve_options_others "Windows" default_options (remove_fPIC default_options)).
  reflexivity.
Defined.

(** ** Requirements *)

(** X9: each of the three packages is required exactly under its option,
    nothing else is required, and nothing is required twice. *)
Theorem requirements_by_option (o : Options) :
  (In "freetype/2.13.0" (requirements o) <-> font_interface o = Some freetype) /\
  (In "lua/5.4.4" (requirements o) <-> with_lua_bindings o = true) /\
  (In "robin-hood-hashing/3.11.5" (requirements o)
   <-> with_thirdparty_containers o = true) /\
  (forall r, In r (requirements o) ->
     In r ["freetype/2.13.0"; "lua/5.4.4"; "robin-hood-hashing/3.11.5"]) /\
  List.NoDup (requirements o).
Proof.
  unfold requirements.
  destruct (font_interface o) as [[] |], (with_lua_bindings o),
    (with_thirdparty_containers o); cbn;
    (split; [| split; [| split; [| split]]]);
    try (repeat constructor; cbn; intuition discriminate);
    try (intros r Hr; cbn in Hr; intuition (subst; cbn; auto 10));
    try (split; [intros H; cbn in H; intuition discriminate
                | intros H; try discriminate H; cbn; auto 10]).
Qed.

(** ** Build variables, further *)

(** X10: [generate] raises nothing but [KeyError], and that exactly when the
    container package is not among the dependencies. With the dependencies
    that [requirements] declares it returns a table exactly when
    [with_thirdparty_containers] is true, so a table it returns never has
    [NO_THIRDPARTY_CONTAINERS] set to true. *)
Theorem generate_outcome (o : Options) (deps : gmap string CppInfo) :
  (generate o deps = Raise KeyError <-> deps !! robin_hood = None) /\
  (forall e, generate o deps = Raise e -> e = KeyError) /\
  (forall packages,
     (exists tc, generate o (dependencies_of packages (requirements o)) = Ok tc)
     <-> with_thirdparty_containers o = true) /\
  (forall packages tc,
     generate o (dependencies_of packages (requirements o)) = Ok tc ->
     tc !! "NO_THIRDPARTY_CONTAINERS" = Some (PyBool false)).
Proof.
  assert (Hcases : forall d,
    (d !! robin_hood = None /\ generate o d = Raise KeyError)
    \/ (exists dep tc, d !! robin_hood = Some dep /\ generate o d = Ok tc /\
         tc !! "NO_THIRDPARTY_CONTAINERS"
         = Some (PyBool (negb (with_thirdparty_containers o))))).
  { intros d. destruct (d !! robin_hood) as [dep |] eqn:Hd.
    - right. destruct (generate_table o d dep Hd)
        as (tc & Hgen & _ & _ & _ & _ & _ & _ & _ & _ & _ & Hno & _).
      eauto 6.
    - left. split; [reflexivity | now apply generate_KeyError]. }
  split; [| split; [| split]].
  - destruct (Hcases deps) as [[Hd Hg] | (dep & tc & Hd & Hg & _)];
      rewrite Hd, Hg; split; (reflexivity || discriminate).
  - intros e He. destruct (Hcases deps) as [[_ Hg] | (dep & tc & _ & Hg & _)];
      congruence.
  - intros packages.
    destruct (Hcases (dependencies_of packages (requirements o)))
      as [[Hd Hg] | (dep & tc & Hd & Hg & _)];
      rewrite dependencies_robin_hood in Hd;
      destruct (with_thirdparty_containers o); try discriminate; rewrite Hg.
    + split; [intros [tc Htc]; discriminate | discriminate].
    + split; [reflexivity | eauto].
  - intros packages tc Htc.
    destruct (Hcases (dependencies_of packages (requirements o)))
      as [[Hd Hg] | (dep & tc' & Hd & Hg & Hno)]; [congruence |].
    rewrite dependencies_robin_hood in Hd.
    destruct (with_thirdparty_containers o); [| discriminate].
    assert (tc' = tc) as -> by congruence. exact Hno.
Qed.

(** X11: when [with_thirdparty_containers] is true, [generate] run on the
    dependencies that [requirements] declares returns a table of exactly the
    ten variables: the include directories of the container package, the
    flags of the options, and [NO_FONT_INTERFACE_DEFAULT] false whatever
    [font_interface] is. *)
Theorem generate_after_requirements (o : Options) (packages : string -> CppInfo) :
  with_thirdparty_containers o = true ->
  exists tc,
    generate o (dependencies_of packages (requirements o)) = Ok tc /\
    size tc = 10%nat /\
    Forall (fun name => is_Some (tc !! name)) variable_names /\
    tc !! "CUSTOM_INCLUDE_DIRS"
      = Some (PyStr (Py.join ";" (map Py.re_escape
                                    (includedirs (packages robin_hood))))) /\
    tc !! "BUILD_LUA_BINDINGS" = Some (PyBool (with_lua_bindings o)) /\
    tc !! "DISABLE_RTTI_AND_EXCEPTIONS"
      = Some (PyBool (negb (enable_rtti_and_exceptions o))) /\
    tc !! "MATRIX_ROW_MAJOR"
      = Some (PyBool (matrix_mode_eqb (matrix_mode o) row_major)) /\
    tc !! "NO_FONT_INTERFACE_DEFAULT" = Some (PyBool false) /\
    tc !! "NO_THIRDPARTY_CONTAINERS" = Some (PyBool false) /\
    tc !! "BUILD_SAMPLES" = Some (PyBool false) /\
    tc !! "CUSTOM_CONFIGURATION" = Some (PyBool true) /\
    tc !! "ENABLE_PRECOMPILED_HEADERS" = Some (PyBool true) /\
    tc !! "ENABLE_TRACY_PROFILING" = Some (PyBool false).
Proof.
  intros Htp.
  assert (Hd : dependencies_of packages (requirements o) !! robin_hood
               = Some (packages robin_hood))
    by (rewrite dependencies_robin_hood; now rewrite Htp).
  destruct (generate_table o _ _ Hd)
    as (tc & Hgen & H1 & H2 & H3 & H4 & H5 & H6 & H7 & H8 & H9 & H10 & Hsize).
  rewrite Htp in H10. exists tc.
  split; [exact Hgen |]. split; [exact Hsize |]. split.
  - unfold variable_names. repeat (apply Forall_cons; split; [eauto |]).
    apply Forall_nil; exact I.
  - auto 15.
Qed.

Lemma generate_after_requirements_witness :
  with_thirdparty_containers no_font_options = true /\
  exists tc,
    generate no_font_options
      (dependencies_of (fun _ => sample_dep) (requirements no_font_options))
    = Ok tc /\
    size tc = 10%nat /\
    Forall (fun name => is_Some (tc !! name)) variable_names /\
    tc !! "CUSTOM_INCLUDE_DIRS"
      = Some (PyStr (Py.join ";" (map Py.re_escape (includedirs sample_dep)))) /\
    tc !! "BUILD_LUA_BINDINGS" = Some (PyBool (with_lua_bindings no_font_options)) /\
    tc !! "DISABLE_RTTI_AND_EXCEPTIONS"
      = Some (PyBool (negb (enable_rtti_and_exceptions no_font_options))) /\
    tc !! "MATRIX_ROW_MAJOR"
      = Some (PyBool (matrix_mode_eqb (matrix_mode no_font_options) row_major)) /\
    tc !! "NO_FONT_INTERFACE_DEFAULT" = Some (PyBool false) /\
    tc !! "NO_THIRDPARTY_CONTAINERS" = Some (PyBool false) /\
    tc !! "BUILD_SAMPLES" = Some (PyBool false) /\
    tc !! "CUSTOM_CONFIGURATION" = Some (PyBool true) /\
    tc !! "ENABLE_PRECOMPILED_HEADERS" = Some (PyBool true) /\
    tc !! "ENABLE_TRACY_PROFILING" = Some (PyBool false).
Proof.
  split; [reflexivity |].
  apply (generate_after_requirements no_font_options (fun _ => sample_dep)).
  reflexivity.
Defined.

(** ** Published metadata, further *)

(** X12: on the dependencies that [requirements] declares, whenever
    [generate] returns a table the published defines agree with it: the
    row-major, the custom-RTTI and the no-third-party-containers define are
    published exactly when the matching variable is true. When [generate]
    does not return, it raised [KeyError] with the containers off, and the
    no-third-party-containers define is published although no variable was
    set. *)
Theorem defines_match_variables (o : Options) (packages : string -> CppInfo) :
  let ds := defines (package_info o empty_cpp_info) in
  match generate o (dependencies_of packages (requirements o)) with
  | Ok tc =>
      with_thirdparty_containers o = true /\
      (In "RMLUI_MATRIX_ROW_MAJOR" ds
       <-> tc !! "MATRIX_ROW_MAJOR" = Some (PyBool true)) /\
      (In "RMLUI_USE_CUSTOM_RTTI" ds
       <-> tc !! "DISABLE_RTTI_AND_EXCEPTIONS" = Some (PyBool true)) /\
      (In "RMLUI_NO_THIRDPARTY_CONTAINERS" ds
       <-> tc !! "NO_THIRDPARTY_CONTAINERS" = Some (PyBool true))
  | Raise e =>
      e = KeyError /\ with_thirdparty_containers o = false /\
      In "RMLUI_NO_THIRDPARTY_CONTAINERS" ds
  end.
Proof.
  cbv zeta.
  pose proof (dependencies_robin_hood packages o) as Hd.
  destruct (with_thirdparty_containers o) eqn:Htp.
  - destruct (generate_table o _ _ Hd)
      as (tc & Hgen & _ & _ & _ & _ & Hrtti & _ & _ & Hrow & _ & Hno & _).
    rewrite Hgen, Hrow, Hrtti, Hno. split; [reflexivity |].
    destruct o as [rtti fi pic mm sh lua tp]. cbn in Htp. subst tp.
    destruct rtti, mm, sh, lua; cbn; repeat split;
      intros H; try discriminate H; auto 10;
      try (intuition discriminate).
  - rewrite (generate_KeyError o _ Hd). split; [reflexivity |]. split; [reflexivity |].
    destruct o as [rtti fi pic mm sh lua tp]. cbn in Htp. subst tp.
    destruct rtti, mm, sh, lua; cbn; auto 10.
Qed.

Lemma package_info_appends (o : Options) (c : CppInfo) :
  defines (package_info o c)
    = (defines c ++ defines (package_info o empty_cpp_info))%list /\
  libs (package_info o c)
    = (libs c ++ libs (package_info o empty_cpp_info))%list /\
  includedirs (package_info o c) = includedirs c.
Proof.
  unfold package_info.
  destruct (matrix_mode_eqb _ _), (enable_rtti_and_exceptions o), (shared o),
    (with_thirdparty_containers o), (with_lua_bindings o); cbn;
    rewrite <- ?app_assoc, ?app_nil_r; repeat split; reflexivity.
Qed.

(** X13: [package_info] only appends: the defines and libraries already in
    [cpp_info] stay in front, the include directories are not touched, and a
    second run on the same [cpp_info] publishes everything twice. *)
Theorem package_info_append_only (o : Options) (c : CppInfo) :
  defines (package_info o c)
    = (defines c ++ defines (package_info o empty_cpp_info))%list /\
  libs (package_info o c)
    = (libs c ++ libs (package_info o empty_cpp_info))%list /\
  includedirs (package_info o c) = includedirs c /\
  libs (package_info o (package_info o c))
    = (libs c ++ libs (package_info o empty_cpp_info)
              ++ libs (package_info o empty_cpp_info))%list /\
  (2 <= length (libs (package_info o empty_cpp_info)) <= 3)%nat /\
  (length (defines (package_info o empty_cpp_info)) <= 4)%nat.
Proof.
  destruct (package_info_appends o c) as (Hd & Hl & Hi).
  split; [exact Hd |]. split; [exact Hl |]. split; [exact Hi |]. split.
  - destruct (package_info_appends o (package_info o c)) as (_ & -> & _).
    now rewrite Hl, <- app_assoc.
  - destruct o as [rtti fi pic mm sh lua tp].
    destruct rtti, mm, sh, lua, tp; cbn; lia.
Qed.

(** X14: the lua-bindings library is published exactly when the lua package
    is required. *)
Theorem lua_library_iff_required (o : Options) :
  In "RmlLua" (libs (package_info o empty_cpp_info))
  <-> In "lua/5.4.4" (requirements o).
Proof.
  unfold requirements, package_info.
  destruct (font_interface o) as [[] |], (matrix_mode_eqb _ _),
    (enable_rtti_and_exceptions o), (shared o), (with_thirdparty_containers o),
    (with_lua_bindings o); cbn; intuition discriminate.
Qed.

(** ** Patching the sources, further *)

Lemma find_absent (s sub : string) : Py.find s sub = -1 <-> occursb sub s = false.
Proof.
  rewrite <- Z.eqb_eq, find_occursb. now destruct (occursb sub s).
Qed.

(** The whole of a run, by the files it finds. *)
Lemma _patch_sources_run (o : Options) (source_folder : string) (w : World) :
  match files w !! cmakelists_path source_folder with
  | None => _patch_sources o source_folder w = (w, Raise FileNotFoundError)
  | Some c1 =>
      exists ws,
        let w' := {| files := <[cmakelists_path source_folder
                                 := patch_text replace_mapping c1]> (files w);
                     warnings := (warnings w ++ ws)%list |} in
        _patch_sources o source_folder w
        = if with_thirdparty_containers o then
            match files w !! config_path source_folder with
            | None => (w', Raise FileNotFoundError)
            | Some c2 =>
                if occursb robin_hood_search c2
                then (save (config_path source_folder)
                        (Py.replace c2 robin_hood_search robin_hood_replace) w',
                      Ok tt)
                else (w', Raise ConanException)
            end
          else (w', Ok tt)
  end.
Proof.
  unfold _patch_sources.
  destruct (files w !! cmakelists_path source_folder) as [c1 |] eqn:Hc1.
  - destruct (replace_each_Ok _ replace_mapping replace_mapping_nonempty w c1 Hc1)
      as [ws Hrun].
    exists ws. cbv zeta. rewrite Hrun.
    destruct (with_thirdparty_containers o); [| reflexivity].
    unfold replace_in_file. cbn [files].
    rewrite lookup_insert_ne by apply paths_differ.
    destruct (files w !! config_path source_folder) as [c2 |]; [| reflexivity].
    rewrite find_occursb. now destruct (occursb robin_hood_search c2).
  - now rewrite (replace_each_missing _ _ _ Hc1) by discriminate.
Qed.

(** X15: after a run that completed, CMakeLists.txt holds none of the nine
    search texts, and with the third-party containers on Config.h no longer
    holds the include of the bundled header. *)
Theorem _patch_sources_postcondition
    (o : Options) (source_folder : string) (w w1 : World) :
  _patch_sources o source_folder w = (w1, Ok tt) ->
  (exists c, files w1 !! cmakelists_path source_folder = Some c /\
             forall key value, In (key, value) replace_mapping -> Py.find c key = -1) /\
  (with_thirdparty_containers o = true ->
   exists c, files w1 !! config_path source_folder = Some c /\
             Py.find c robin_hood_search = -1).
Proof.
  intros Hrun. pose proof (_patch_sources_run o source_folder w) as Hcase.
  destruct (files w !! cmakelists_path source_folder) as [c1 |]; [| congruence].
  destruct Hcase as [ws Hcase]. cbv zeta in Hcase. rewrite Hrun in Hcase.
  assert (Hclean : forall key value, In (key, value) replace_mapping ->
            Py.find (patch_text replace_mapping c1) key = -1).
  { intros key value Hin. apply find_absent.
    apply (patch_text_clean _ replace_mapping_stable c1 (key, value) Hin). }
  destruct (with_thirdparty_containers o).
  - destruct (files w !! config_path source_folder) as [c2 |]; [| discriminate].
    destruct (occursb robin_hood_search c2); [| discriminate].
    injection Hcase as ->. unfold save. cbn [files]. split.
    + exists (patch_text replace_mapping c1). split; [| exact Hclean].
      rewrite lookup_insert_ne by (apply not_eq_sym, paths_differ).
      apply lookup_insert_eq.
    + intros _. eexists. split; [apply lookup_insert_eq |].
      apply find_absent, robin_hood_gone.
  - injection Hcase as ->. cbn [files]. split; [| discriminate].
    exists (patch_text replace_mapping c1). split; [apply lookup_insert_eq | exact Hclean].
Qed.

Lemma _patch_sources_postcondition_witness :
  let w1 := fst (_patch_sources default_options "/src" sample_world) in
  _patch_sources default_options "/src" sample_world = (w1, Ok tt) /\
  (exists c, files w1 !! cmakelists_path "/src" = Some c /\
             forall key value, In (key, value) replace_mapping -> Py.find c key = -1) /\
  (with_thirdparty_containers default_options = true ->
   exists c, files w1 !! config_path "/src" = Some c /\
             Py.find c robin_hood_search = -1).
Proof.
  split; [vm_compute; reflexivity |].
  apply (_patch_sources_postcondition default_options "/src" sample_world).
  vm_compute. reflexivity.
Defined.

(** X16: whatever the outcome, [_patch_sources] leaves every file other than
    CMakeLists.txt and Config.h as it was, creates and deletes no file, keeps
    the warnings written before, and with the third-party containers off
    does not touch Config.h either. *)
Theorem _patch_sources_frame (o : Options) (source_folder : string) (w : World) :
  let w1 := fst (_patch_sources o source_folder w) in
  (forall p, p <> cmakelists_path source_folder -> p <> config_path source_folder ->
             files w1 !! p = files w !! p) /\
  (forall p, is_Some (files w1 !! p) <-> is_Some (files w !! p)) /\
  (with_thirdparty_containers o = false ->
   files w1 !! config_path source_folder = files w !! config_path source_folder) /\
  (exists ws, warnings w1 = (warnings w ++ ws)%list).
Proof.
  pose proof (_patch_sources_run o source_folder w) as Hcase.
  pose proof (paths_differ source_folder) as Hdiff.
  destruct (files w !! cmakelists_path source_folder) as [c1 |] eqn:Hc1.
  2: { rewrite Hcase. cbn. repeat split; auto. exists []. now rewrite app_nil_r. }
  destruct Hcase as [ws Hcase]. cbv zeta in Hcase.
  assert (Hdom1 : forall p x,
    is_Some (<[cmakelists_path source_folder := x]> (files w) !! p)
    <-> is_Some (files w !! p)).
  { intros p x. destruct (decide (cmakelists_path source_folder = p)) as [<- | Hne].
    - rewrite lookup_insert_eq, Hc1. split; eauto.
    - now rewrite lookup_insert_ne. }
  destruct (with_thirdparty_containers o).
  - destruct (files w !! config_path source_folder) as [c2 |] eqn:Hc2.
    + destruct (occursb robin_hood_search c2); rewrite Hcase; cbn;
        (split; [| split; [| split; [discriminate | eauto]]]).
      * intros p H1 H2. now rewrite !lookup_insert_ne by congruence.
      * intros p. destruct (decide (config_path source_folder = p)) as [<- | Hne].
        -- rewrite lookup_insert_eq, Hc2. split; eauto.
        -- rewrite lookup_insert_ne by exact Hne. apply Hdom1.
      * intros p H1 H2. now rewrite lookup_insert_ne by congruence.
      * intros p. apply Hdom1.
    + rewrite Hcase. cbn. split; [| split; [| split; [discriminate | eauto]]].
      * intros p H1 H2. now rewrite lookup_insert_ne by congruence.
      * intros p. apply Hdom1.
  - rewrite Hcase. cbn. split; [| split; [| split; [| eauto]]].
    + intros p H1 H2. now rewrite lookup_insert_ne by congruence.
    + intros p. apply Hdom1.
    + intros _. now rewrite lookup_insert_ne by exact Hdiff.
Qed.

(** X17: the outcome of [_patch_sources], by the files it finds: a missing
    CMakeLists.txt is a file error; with the third-party containers on, a
    missing Config.h is a file error and a Config.h without the include of
    the bundled header is the patch error; everything else completes. *)
Theorem _patch_sources_outcome (o : Options) (source_folder : string) (w : World) :
  snd (_patch_sources o source_folder w)
  = match files w !! cmakelists_path source_folder with
    | None => Raise FileNotFoundError
    | Some _ =>
        if with_thirdparty_containers o then
          match files w !! config_path source_folder with
          | None => Raise FileNotFoundError
          | Some c2 =>
              if Py.find c2 robin_hood_search =? -1
              then Raise ConanException else Ok tt
          end
        else Ok tt
    end.
Proof.
  pose proof (_patch_sources_run o source_folder w) as Hcase.
  destruct (files w !! cmakelists_path source_folder) as [c1 |];
    [| now rewrite Hcase].
  destruct Hcase as [ws Hcase]. cbv zeta in Hcase. rewrite Hcase.
  destruct (with_thirdparty_containers o); [| reflexivity].
  destruct (files w !! config_path source_folder) as [c2 |]; [| reflexivity].
  rewrite find_occursb. now destruct (occursb robin_hood_search c2).
Qed.

(** X18: a run that raises after CMakeLists.txt was read does so at the
    Config.h rule and is not rolled back: CMakeLists.txt stays rewritten,
    Config.h is as it was. *)
Theorem _patch_sources_no_rollback
    (o : Options) (source_folder : string) (w : World) (c1 : string) (e : exn) :
  files w !! cmakelists_path source_folder = Some c1 ->
  snd (_patch_sources o source_folder w) = Raise e ->
  let w1 := fst (_patch_sources o source_folder w) in
  with_thirdparty_containers o = true /\
  files w1 !! cmakelists_path source_folder = Some (patch_text replace_mapping c1) /\
  files w1 !! config_path source_folder = files w !! config_path source_folder.
Proof.
  intros Hc1 Hraise. pose proof (_patch_sources_run o source_folder w) as Hcase.
  pose proof (paths_differ source_folder) as Hdiff.
  rewrite Hc1 in Hcase. destruct Hcase as [ws Hcase]. cbv zeta in Hcase.
  rewrite Hcase in Hraise |- *.
  destruct (with_thirdparty_containers o); [| discriminate].
  destruct (files w !! config_path source_folder) as [c2 |] eqn:Hc2.
  - destruct (occursb robin_hood_search c2); [discriminate |]. cbn.
    split; [reflexivity |]. split; [apply lookup_insert_eq |].
    now rewrite lookup_insert_ne by exact Hdiff.
  - cbn. split; [reflexivity |]. split; [apply lookup_insert_eq |].
    now rewrite lookup_insert_ne by exact Hdiff.
Qed.

Lemma _patch_sources_no_rollback_witness :
  files unbundled_world !! cmakelists_path "/src" = Some "if(FREETYPE_FOUND)" /\
  snd (_patch_sources default_options "/src" unbundled_world) = Raise ConanException /\
  files (fst (_patch_sources default_options "/src" unbundled_world))
    !! cmakelists_path "/src"
  = Some (patch_text replace_mapping "if(FREETYPE_FOUND)").
Proof.
  split; [vm_compute; reflexivity |]. split; [vm_compute; reflexivity |].
  apply (_patch_sources_no_rollback default_options "/src" unbundled_world
           "if(FREETYPE_FOUND)" ConanException);
    vm_compute; reflexivity.
Defined.

Lemma replace_each_absent (path : string) (rules : list (string * string)) :
  forall (w : World) (c : string),
    files w !! path = Some c ->
    (forall r, In r rules -> occursb (fst r) c = false) ->
    replace_each path rules w
    = ({| files := files w;
          warnings := (warnings w
                       ++ map (fun r => not_found_message (fst r) path) rules)%list |},
       Ok tt).
Proof.
  induction rules as [| [key value] rules IH]; intros w c Hc Habs.
  - cbn. now rewrite app_nil_r, world_eta.
  - cbn [replace_each]. unfold replace_in_file. rewrite Hc, find_occursb.
    pose proof (Habs (key, value) (or_introl eq_refl)) as Hk. cbn [fst] in Hk.
    rewrite Hk. cbn [negb].
    rewrite (IH (warn (not_found_message key path) w) c Hc
               (fun r Hr => Habs r (or_intror Hr))).
    cbn [files warnings warn map fst]. now rewrite <- app_assoc.
Qed.

(** X19: on a CMakeLists.txt that holds none of the search texts the lenient
    rules change nothing and write one warning each, nine in all, in the
    order of the rules. *)
Theorem _patch_sources_nothing_to_replace
    (o : Options) (source_folder : string) (w : World) (c : string) :
  with_thirdparty_containers o = false ->
  files w !! cmakelists_path source_folder = Some c ->
  (forall key value, In (key, value) replace_mapping -> Py.find c key = -1) ->
  exists ws,
    _patch_sources o source_folder w
    = ({| files := files w; warnings := (warnings w ++ ws)%list |}, Ok tt) /\
    ws = map (fun r => not_found_message (fst r) (cmakelists_path source_folder))
             replace_mapping /\
    length ws = 9%nat.
Proof.
  intros Htp Hc Habs. eexists. split; [| split; [reflexivity | reflexivity]].
  unfold _patch_sources. rewrite Htp.
  rewrite (replace_each_absent _ replace_mapping w c Hc); [reflexivity |].
  intros [key value] Hin. apply find_absent. now apply (Habs key value).
Qed.

Lemma _patch_sources_nothing_to_replace_witness :
  with_thirdparty_containers no_containers_options = false /\
  files plain_world !! cmakelists_path "/src" = Some "project(RmlUi)" /\
  exists ws,
    _patch_sources no_containers_options "/src" plain_world
    = ({| files := files plain_world; warnings := (warnings plain_world ++ ws)%list |},
       Ok tt) /\
    ws = map (fun r => not_found_message (fst r) (cmakelists_path "/src"))
             replace_mapping /\
    length ws = 9%nat.
Proof.
  split; [reflexivity |]. split; [vm_compute; reflexivity |].
  apply (_patch_sources_nothing_to_replace no_containers_options "/src" plain_world
           "project(RmlUi)"); [reflexivity | vm_compute; reflexivity |].
  intros key value Hin.
  repeat (destruct Hin as [[= <- <-] | Hin]; [reflexivity |]). destruct Hin.
Defined.

(** ** Build and package *)

Section HookProperties.

Variable external : list Call -> Call -> result unit.

Lemma with_disk_configured_once (w : World) (r : Recipe) :
  configured_once r -> configured_once (with_disk w r).
Proof. intros H. exact H. Qed.

Lemma _configure_cmake_configured_once (r : Recipe) :
  configured_once r ->
  configured_once (fst (_configure_cmake external r))
  /\ has_cmake (fst (_configure_cmake external r)) = true.
Proof.
  unfold configured_once, _configure_cmake, invoke.
  destruct (has_cmake r) eqn:Hc; cbn; [rewrite Hc; auto |].
  intros ->. split; [| reflexivity]. exists []. cbn. auto.
Qed.

Lemma invoke_configured_once (c : Call) (r : Recipe) :
  c <> CMakeConfigure -> has_cmake r = true ->
  configured_once r ->
  configured_once (fst (invoke external c r))
  /\ has_cmake (fst (invoke external c r)) = true.
Proof.
  unfold configured_once, invoke. intros Hc Hr. cbn. rewrite Hr.
  intros (rest & -> & Hrest). split; [| reflexivity].
  exists (rest ++ [c])%list. split; [reflexivity |].
  intros Hin. apply in_app_or in Hin as [Hin | [Hin | []]]; congruence.
Qed.

Lemma build_configured_once (o : Options) (source_folder : string) (r : Recipe) :
  configured_once r -> configured_once (fst (build external o source_folder r)).
Proof.
  intros H. unfold build.
  destruct (_patch_sources o source_folder (disk r)) as [w [[] | e]]; [| exact H].
  pose proof (_configure_cmake_configured_once (with_disk w r) H) as [H1 Hc1].
  destruct (_configure_cmake external (with_disk w r)) as [r1 [[] | e]];
    cbn [fst] in *; [| exact H1].
  now apply invoke_configured_once.
Qed.

Lemma package_configured_once (r : Recipe) :
  configured_once r -> configured_once (fst (package external r)).
Proof.
  intros H. unfold package.
  pose proof (_configure_cmake_configured_once r H) as [H1 Hc1].
  destruct (_configure_cmake external r) as [r1 [[] | e]]; cbn [fst] in *;
    [| exact H1].
  pose proof (invoke_configured_once CMakeInstall r1 ltac:(discriminate) Hc1 H1)
    as [H2 Hc2].
  destruct (invoke external CMakeInstall r1) as [r2 [[] | e]]; cbn [fst] in *;
    [| exact H2].
  now apply invoke_configured_once.
Qed.

Lemma run_hooks_configured_once (o : Options) (source_folder : string)
    (hooks : list Hook) (r : Recipe) :
  configured_once r ->
  configured_once (run_hooks external o source_folder hooks r).
Proof.
  revert r. induction hooks as [| [] hooks IH]; intros r H; cbn; [exact H | |].
  - now apply IH, build_configured_once.
  - now apply IH, package_configured_once.
Qed.

(** X20: however [build] and [package] are run on one instance, and
    however the calls to the build tool end, the build tool is configured at
    most once, and before anything else is asked of it. *)
Theorem configure_at_most_once (o : Options) (source_folder : string)
    (hooks : list Hook) (w : World) :
  let r := run_hooks external o source_folder hooks (fresh w) in
  calls r = []
  \/ exists rest, calls r = CMakeConfigure :: rest /\ ~ In CMakeConfigure rest.
Proof.
  pose proof (run_hooks_configured_once o source_folder hooks (fresh w) eq_refl) as H.
  unfold configured_once in H. cbv zeta.
  destruct (has_cmake _); [now right | now left].
Qed.

(** X21: a configure step that fails is not tried again: [build] raises
    its exception, and a [package] on the same instance goes straight to the
    install step. *)
Theorem failed_configure_not_retried
    (o : Options) (source_folder : string) (w : World) (e : exn) :
  snd (_patch_sources o source_folder w) = Ok tt ->
  external [] CMakeConfigure = Raise e ->
  let b := build external o source_folder (fresh w) in
  snd b = Raise e /\
  calls (fst b) = [CMakeConfigure] /\
  exists rest,
    calls (fst (package external (fst b))) = CMakeConfigure :: CMakeInstall :: rest
    /\ ~ In CMakeConfigure rest.
Proof.
  intros Hpatch Hconf. unfold build. cbn [disk fresh].
  destruct (_patch_sources o source_folder w) as [w1 r1]. cbn in Hpatch. subst r1.
  unfold _configure_cmake, invoke. cbn. rewrite Hconf. cbn.
  split; [reflexivity |]. split; [reflexivity |].
  unfold package, _configure_cmake, invoke. cbn.
  destruct (external [CMakeConfigure] CMakeInstall) as [[] | e']; cbn.
  - exists [CopyLicenses]. split; [reflexivity |]. intros [H | []]. discriminate.
  - exists []. split; [reflexivity | intros []].
Qed.

(** X22: when patching the sources raises, [build] raises the same
    exception without asking anything of the build tool. *)
Theorem build_stops_at_patch
    (o : Options) (source_folder : string) (r : Recipe) (e : exn) :
  snd (_patch_sources o source_folder (disk r)) = Raise e ->
  build external o source_folder r
  = (with_disk (fst (_patch_sources o source_folder (disk r))) r, Raise e).
Proof.
  intros H. unfold build.
  destruct (_patch_sources o source_folder (disk r)) as [w1 r1]. cbn in H.
  now subst r1.
Qed.

(** X23: when patching and every call succeed, [build] and then [package]
    on one instance configure once, build, install and copy the licences, in
    that order, on the patched tree. *)
Theorem build_then_package
    (o : Options) (source_folder : string) (w : World) :
  (forall before c, external before c = Ok tt) ->
  snd (_patch_sources o source_folder w) = Ok tt ->
  let b := build external o source_folder (fresh w) in
  let p := package external (fst b) in
  snd b = Ok tt /\ snd p = Ok tt /\
  calls (fst b) = [CMakeConfigure; CMakeBuild] /\
  calls (fst p) = [CMakeConfigure; CMakeBuild; CMakeInstall; CopyLicenses] /\
  disk (fst p) = fst (_patch_sources o source_folder w).
Proof.
  intros Hok Hpatch. unfold build. cbn [disk fresh].
  destruct (_patch_sources o source_folder w) as [w1 r1]. cbn in Hpatch. subst r1.
  unfold package, _configure_cmake, invoke. cbn.
  repeat (rewrite !Hok; cbn). auto.
Qed.

End HookProperties.

Lemma failed_configure_not_retried_witness :
  snd (_patch_sources default_options "/src" sample_world) = Ok tt /\
  configure_fails [] CMakeConfigure = Raise ConanException /\
  snd (build configure_fails default_options "/src" (fresh sample_world))
  = Raise ConanException.
Proof.
  split; [vm_compute; reflexivity |]. split; [reflexivity |].
  apply (failed_configure_not_retried configure_fails default_options "/src"
           sample_world ConanException); [vm_compute; reflexivity | reflexivity].
Defined.

Lemma build_stops_at_patch_witness :
  snd (_patch_sources default_options "/src" (disk (fresh unbundled_world)))
  = Raise ConanException /\
  build all_succeed default_options "/src" (fresh unbundled_world)
  = (with_disk (fst (_patch_sources default_options "/src"
                       (disk (fresh unbundled_world))))
               (fresh unbundled_world),
     Raise ConanException).
Proof.
  split; [vm_compute; reflexivity |].
  apply (build_stops_at_patch all_succeed default_options "/src"
           (fresh unbundled_world) ConanException).
  vm_compute. reflexivity.
Defined.

Lemma build_then_package_witness :
  (forall before c, all_succeed before c = Ok tt) /\
  snd (_patch_sources default_options "/src" sample_world) = Ok tt /\
  calls (fst (package all_succeed
                (fst (build all_succeed default_options "/src" (fresh sample_world)))))
  = [CMakeConfigure; CMakeBuild; CMakeInstall; CopyLicenses].
Proof.
  split; [reflexivity |]. split; [vm_compute; reflexivity |].
  apply (build_then_package all_succeed default_options "/src" sample_world);
    [reflexivity | vm_compute; reflexivity].
Defined.

(** ** The gate and newer compilers *)

(** X24: a newer compiler is never turned away where an older one got
    through: if [validate] returns for a version and that version is below
    another, [validate] returns for the other too. *)
Theorem validate_upward_closed check (name older newer : string) :
  snd (validate check (settings_of name older)) = Ok tt ->
  lazy_lt_semver older newer = Ok true ->
  snd (validate check (settings_of name newer)) = Ok tt.
Proof.
  intros Hold Hlt.
  rewrite (validate_standard_passes check (settings_of name older) I) in Hold.
  rewrite (validate_standard_passes check (settings_of name newer) I).
  cbn [compiler compiler_version settings_of] in *.
  destruct (_minimum_compilers_version !! name) as [mv |] eqn:Hmv; [| reflexivity].
  apply lazy_lt_semver_inv in Hlt as (lo & ln & Ho & Hn & Hlt).
  pose proof (ints_numerals _ (minimum_versions_dotted _ _ Hmv)) as Hm.
  rewrite (lazy_lt_semver_prefix_lt _ _ _ _ Ho Hm) in Hold.
  rewrite (lazy_lt_semver_prefix_lt _ _ _ _ Hn Hm).
  destruct (prefix_lt ln _) eqn:Hnm; [| reflexivity].
  symmetry in Hlt. rewrite (prefix_lt_trans _ _ _ Hlt Hnm) in Hold.
  discriminate.
Qed.

Lemma validate_upward_closed_witness :
  snd (validate check_min_cppstd_numeric (settings_of "gcc" "5.4")) = Ok tt /\
  lazy_lt_semver "5.4" "11.2.0" = Ok true /\
  snd (validate check_min_cppstd_numeric (settings_of "gcc" "11.2.0")) = Ok tt.
Proof.
  split; [reflexivity |]. split; [reflexivity |].
  apply (validate_upward_closed check_min_cppstd_numeric "gcc" "5.4" "11.2.0");
    reflexivity.
Defined.
